(** * E-waste analyzer: schema, record validation, prompt resolution, report

    A shallow embedding of [sample.py].  The script declares four closed
    string enumerations, two pydantic models, a JSON schema handed to the
    remote model, the request function [analyze_ewaste] and the report
    renderer [generate_processing_report].

    Conventions.
    - A Python [str] is a [string]; non-ASCII characters are kept as the
      UTF-8 bytes of the source file, which is injective on code points and
      commutes with concatenation.
    - A Python [dict] with string keys is a [gmap string _].
    - A Python [float] is an IEEE binary64 value, taken from the Standard
      Library's [SpecFloat] at precision 53 and exponent bound 1024; a Python
      [int] is a [Z].
    - Effects (console output, the file system, the remote service, the
      clock) are explicit: a trace of events, oracles for the outside world
      and a clock that is threaded through. *)

From Stdlib Require Import ZArith String Ascii List SpecFloat Lia.
From stdpp Require Import base option list gmap strings pretty.

Local Open Scope string_scope.
Local Open Scope Z_scope.

#[local] Set Warnings "-register-all".

(** ** Strings *)

Definition nl : string := String (ascii_of_nat 10) EmptyString.

(** A suffix test and a counter, to say which lines carry a mark. *)
Definition ends_with (suffix s : string) : bool :=
  let n := String.length suffix in
  let k := String.length s in
  String.eqb (substring (k - n)%nat n s) suffix.

Definition count_where {A} (p : A -> bool) (l : list A) : nat :=
  List.length (List.filter p l).

(** ** Enumerations (lines 14-82)

    Each class derives from [str] and [Enum]: a member has a name and a
    string value; iterating the class yields the members in definition
    order; calling the class on a value looks the member up by value. *)

Class StrEnum (E : Type) : Type := {
  cls_name : string;
  name : E -> string;
  value : E -> string;
  members : list E
}.

(** [E(v)]: the first member whose value is [v], as [_value2member_map_]
    does; [None] stands for the [ValueError]. *)
Definition of_value {E} `{StrEnum E} (v : string) : option E :=
  List.find (fun e => String.eqb (value e) v) members.

Definition values (E : Type) `{StrEnum E} : list string :=
  List.map value (members (E := E)).

Inductive ObjectCategory : Set :=
  | SMARTPHONE | TABLET | LAPTOP | DESKTOP_COMPUTER | MONITOR | TELEVISION
  | GAMING_CONSOLE | SMARTWATCH | EARBUDS | CAMERA | CIRCUIT_BOARD
  | HARD_DRIVE | RAM | PROCESSOR | GRAPHICS_CARD | POWER_SUPPLY | SSD
  | MOTHERBOARD | LITHIUM_BATTERY | ALKALINE_BATTERY | LEAD_ACID_BATTERY
  | BUTTON_BATTERY | LAPTOP_BATTERY | PHONE_BATTERY | CABLES | CHARGER
  | KEYBOARD | MOUSE | USB_DEVICE | PRINTER | SCANNER | ROUTER | SPEAKER
  | MICROWAVE | MIXED_EWASTE | UNKNOWN.

Definition ObjectCategory_name (e : ObjectCategory) : string :=
  match e with
  | SMARTPHONE => "SMARTPHONE"
  | TABLET => "TABLET"
  | LAPTOP => "LAPTOP"
  | DESKTOP_COMPUTER => "DESKTOP_COMPUTER"
  | MONITOR => "MONITOR"
  | TELEVISION => "TELEVISION"
  | GAMING_CONSOLE => "GAMING_CONSOLE"
  | SMARTWATCH => "SMARTWATCH"
  | EARBUDS => "EARBUDS"
  | CAMERA => "CAMERA"
  | CIRCUIT_BOARD => "CIRCUIT_BOARD"
  | HARD_DRIVE => "HARD_DRIVE"
  | RAM => "RAM"
  | PROCESSOR => "PROCESSOR"
  | GRAPHICS_CARD => "GRAPHICS_CARD"
  | POWER_SUPPLY => "POWER_SUPPLY"
  | SSD => "SSD"
  | MOTHERBOARD => "MOTHERBOARD"
  | LITHIUM_BATTERY => "LITHIUM_BATTERY"
  | ALKALINE_BATTERY => "ALKALINE_BATTERY"
  | LEAD_ACID_BATTERY => "LEAD_ACID_BATTERY"
  | BUTTON_BATTERY => "BUTTON_BATTERY"
  | LAPTOP_BATTERY => "LAPTOP_BATTERY"
  | PHONE_BATTERY => "PHONE_BATTERY"
  | CABLES => "CABLES"
  | CHARGER => "CHARGER"
  | KEYBOARD => "KEYBOARD"
  | MOUSE => "MOUSE"
  | USB_DEVICE => "USB_DEVICE"
  | PRINTER => "PRINTER"
  | SCANNER => "SCANNER"
  | ROUTER => "ROUTER"
  | SPEAKER => "SPEAKER"
  | MICROWAVE => "MICROWAVE"
  | MIXED_EWASTE => "MIXED_EWASTE"
  | UNKNOWN => "UNKNOWN"
  end.

Definition ObjectCategory_value (e : ObjectCategory) : string :=
  match e with
  | SMARTPHONE => "Smartphone"
  | TABLET => "Tablet"
  | LAPTOP => "Laptop"
  | DESKTOP_COMPUTER => "Desktop Computer"
  | MONITOR => "Monitor"
  | TELEVISION => "Television"
  | GAMING_CONSOLE => "Gaming Console"
  | SMARTWATCH => "Smartwatch"
  | EARBUDS => "Earbuds/Headphones"
  | CAMERA => "Digital Camera"
  | CIRCUIT_BOARD => "Circuit Board"
  | HARD_DRIVE => "Hard Drive"
  | RAM => "RAM Module"
  | PROCESSOR => "CPU/Processor"
  | GRAPHICS_CARD => "Graphics Card"
  | POWER_SUPPLY => "Power Supply Unit"
  | SSD => "Solid State Drive"
  | MOTHERBOARD => "Motherboard"
  | LITHIUM_BATTERY => "Lithium-ion Battery"
  | ALKALINE_BATTERY => "Alkaline Battery"
  | LEAD_ACID_BATTERY => "Lead-acid Battery"
  | BUTTON_BATTERY => "Button Cell Battery"
  | LAPTOP_BATTERY => "Laptop Battery Pack"
  | PHONE_BATTERY => "Phone Battery"
  | CABLES => "Cables/Wires"
  | CHARGER => "Charger/Adapter"
  | KEYBOARD => "Keyboard"
  | MOUSE => "Mouse"
  | USB_DEVICE => "USB Device/Flash Drive"
  | PRINTER => "Printer"
  | SCANNER => "Scanner"
  | ROUTER => "Router/Modem"
  | SPEAKER => "Speaker System"
  | MICROWAVE => "Microwave"
  | MIXED_EWASTE => "Mixed E-waste"
  | UNKNOWN => "Unknown Device"
  end.

Definition ObjectCategory_members : list ObjectCategory :=
  [SMARTPHONE; TABLET; LAPTOP; DESKTOP_COMPUTER; MONITOR; TELEVISION;
   GAMING_CONSOLE; SMARTWATCH; EARBUDS; CAMERA; CIRCUIT_BOARD; HARD_DRIVE;
   RAM; PROCESSOR; GRAPHICS_CARD; POWER_SUPPLY; SSD; MOTHERBOARD;
   LITHIUM_BATTERY; ALKALINE_BATTERY; LEAD_ACID_BATTERY; BUTTON_BATTERY;
   LAPTOP_BATTERY; PHONE_BATTERY; CABLES; CHARGER; KEYBOARD; MOUSE;
   USB_DEVICE; PRINTER; SCANNER; ROUTER; SPEAKER; MICROWAVE; MIXED_EWASTE;
   UNKNOWN].

Inductive ConditionStatus : Set :=
  | INTACT | BROKEN | PARTIALLY_DAMAGED | SEVERELY_DAMAGED | BURNED
  | WATER_DAMAGED.

Definition ConditionStatus_name (e : ConditionStatus) : string :=
  match e with
  | INTACT => "INTACT"
  | BROKEN => "BROKEN"
  | PARTIALLY_DAMAGED => "PARTIALLY_DAMAGED"
  | SEVERELY_DAMAGED => "SEVERELY_DAMAGED"
  | BURNED => "BURNED"
  | WATER_DAMAGED => "WATER_DAMAGED"
  end.

Definition ConditionStatus_value (e : ConditionStatus) : string :=
  match e with
  | INTACT => "Intact"
  | BROKEN => "Broken"
  | PARTIALLY_DAMAGED => "Partially Damaged"
  | SEVERELY_DAMAGED => "Severely Damaged"
  | BURNED => "Burned/Melted"
  | WATER_DAMAGED => "Water Damaged"
  end.

Definition ConditionStatus_members : list ConditionStatus :=
  [INTACT; BROKEN; PARTIALLY_DAMAGED; SEVERELY_DAMAGED; BURNED;
   WATER_DAMAGED].

Inductive ShredSafety : Set :=
  | SAFE_TO_SHRED | DO_NOT_SHRED | REQUIRES_PREPROCESSING.

Definition ShredSafety_name (e : ShredSafety) : string :=
  match e with
  | SAFE_TO_SHRED => "SAFE_TO_SHRED"
  | DO_NOT_SHRED => "DO_NOT_SHRED"
  | REQUIRES_PREPROCESSING => "REQUIRES_PREPROCESSING"
  end.

Definition ShredSafety_value (e : ShredSafety) : string :=
  match e with
  | SAFE_TO_SHRED => "Safe to Shred"
  | DO_NOT_SHRED => "Do Not Shred"
  | REQUIRES_PREPROCESSING => "Requires Preprocessing Before Shredding"
  end.

Definition ShredSafety_members : list ShredSafety :=
  [SAFE_TO_SHRED; DO_NOT_SHRED; REQUIRES_PREPROCESSING].

Inductive ProcessingMethod : Set :=
  | SHRED | MANUAL_DISASSEMBLY | BATTERY_REMOVAL | DATA_DESTRUCTION
  | SPECIALIZED_RECYCLING | HAZMAT_HANDLING.

Definition ProcessingMethod_name (e : ProcessingMethod) : string :=
  match e with
  | SHRED => "SHRED"
  | MANUAL_DISASSEMBLY => "MANUAL_DISASSEMBLY"
  | BATTERY_REMOVAL => "BATTERY_REMOVAL"
  | DATA_DESTRUCTION => "DATA_DESTRUCTION"
  | SPECIALIZED_RECYCLING => "SPECIALIZED_RECYCLING"
  | HAZMAT_HANDLING => "HAZMAT_HANDLING"
  end.

Definition ProcessingMethod_value (e : ProcessingMethod) : string :=
  match e with
  | SHRED => "Shred"
  | MANUAL_DISASSEMBLY => "Manual Disassembly"
  | BATTERY_REMOVAL => "Battery Removal Required"
  | DATA_DESTRUCTION => "Data Destruction Required"
  | SPECIALIZED_RECYCLING => "Specialized Recycling"
  | HAZMAT_HANDLING => "Hazardous Material Handling"
  end.

Definition ProcessingMethod_members : list ProcessingMethod :=
  [SHRED; MANUAL_DISASSEMBLY; BATTERY_REMOVAL; DATA_DESTRUCTION;
   SPECIALIZED_RECYCLING; HAZMAT_HANDLING].

#[export] Instance ObjectCategory_enum : StrEnum ObjectCategory := {
  cls_name := "ObjectCategory";
  name := ObjectCategory_name;
  value := ObjectCategory_value;
  members := ObjectCategory_members
}.

#[export] Instance ConditionStatus_enum : StrEnum ConditionStatus := {
  cls_name := "ConditionStatus";
  name := ConditionStatus_name;
  value := ConditionStatus_value;
  members := ConditionStatus_members
}.

#[export] Instance ShredSafety_enum : StrEnum ShredSafety := {
  cls_name := "ShredSafety";
  name := ShredSafety_name;
  value := ShredSafety_value;
  members := ShredSafety_members
}.

#[export] Instance ProcessingMethod_enum : StrEnum ProcessingMethod := {
  cls_name := "ProcessingMethod";
  name := ProcessingMethod_name;
  value := ProcessingMethod_value;
  members := ProcessingMethod_members
}.

(** No two members of an enumeration share a value, so no declared name is
    an alias and iteration yields every declared member. *)
Definition no_alias (E : Type) `{StrEnum E} : bool :=
  bool_decide (NoDup (values E)).

(** How an f-string renders a member of a [str]-mixin enumeration depends
    on the interpreter: up to Python 3.10 [format] goes through [str] and
    gives the value; from 3.11 on it gives [Class.NAME]. *)
Inductive enum_format : Set := FormatValue | FormatName.

Definition format_enum {E} `{StrEnum E} (mode : enum_format) (e : E) : string :=
  match mode with
  | FormatValue => value e
  | FormatName => cls_name (E := E) ++ "." ++ name e
  end.

(** ** JSON values

    What [json.loads] returns and what the schema literal is made of:
    [None], [bool], [int], [float], [str], [list] and [dict]. *)

Inductive json : Type :=
| JNull
| JBool (b : bool)
| JInt (z : Z)
| JFloat (f : spec_float)
| JStr (s : string)
| JArr (l : list json)
| JObj (m : gmap string json).

(** A dict literal; the literals of the source never repeat a key. *)
Definition jdict (l : list (string * json)) : json :=
  JObj (list_to_map l).

Definition jstrs (l : list string) : json := JArr (JStr <$> l).

(** [d[k]] on a JSON value that may not be a dict. *)
Definition jget (k : string) (j : json) : option json :=
  match j with
  | JObj m => m !! k
  | _ => None
  end.

(** ** Schema builder (lines 122-200) *)

Definition enum_values (E : Type) `{StrEnum E} : json :=
  jstrs (values E).

Definition create_analysis_schema : json :=
  jdict [
    ("type", JStr "object");
    ("properties", jdict [
      ("object_type", jdict [
        ("type", JStr "string");
        ("enum", enum_values ObjectCategory);
        ("description", JStr "Type of electronic waste")]);
      ("brand", jdict [
        ("type", JStr "string");
        ("description", JStr "Brand name if visible");
        ("nullable", JBool true)]);
      ("model", jdict [
        ("type", JStr "string");
        ("description", JStr "Model number if visible");
        ("nullable", JBool true)]);
      ("condition", jdict [
        ("type", JStr "string");
        ("enum", enum_values ConditionStatus);
        ("description", JStr "Physical condition of the item")]);
      ("shred_safety", jdict [
        ("type", JStr "string");
        ("enum", enum_values ShredSafety);
        ("description", JStr "Whether item is safe to shred")]);
      ("safety_notes", jdict [
        ("type", JStr "array");
        ("items", jdict [("type", JStr "string")]);
        ("description", JStr "Specific safety concerns")]);
      ("primary_processing", jdict [
        ("type", JStr "string");
        ("enum", enum_values ProcessingMethod);
        ("description", JStr "Primary processing method")]);
      ("preprocessing_steps", jdict [
        ("type", JStr "array");
        ("items", jdict [("type", JStr "string")]);
        ("description", JStr "Required preprocessing steps")]);
      ("processing_notes", jdict [
        ("type", JStr "string");
        ("description", JStr "Detailed processing instructions")]);
      ("hazardous_components", jdict [
        ("type", JStr "object");
        ("properties", jdict [
          ("has_battery", jdict [("type", JStr "boolean")]);
          ("has_mercury", jdict [("type", JStr "boolean")]);
          ("has_lead", jdict [("type", JStr "boolean")]);
          ("has_capacitors", jdict [("type", JStr "boolean")]);
          ("has_toner", jdict [("type", JStr "boolean")]);
          ("has_data_storage", jdict [("type", JStr "boolean")])]);
        ("required", jstrs ["has_battery"; "has_mercury"; "has_lead";
                            "has_capacitors"; "has_toner"; "has_data_storage"])]);
      ("disposal_category", jdict [
        ("type", JStr "string");
        ("description", JStr "Sorting category for disposal")]);
      ("observations", jdict [
        ("type", JStr "string");
        ("description", JStr "Additional observations")]);
      ("confidence_score", jdict [
        ("type", JStr "number");
        ("description", JStr "Confidence score between 0 and 1")])]);
    ("required", jstrs ["object_type"; "condition"; "shred_safety";
                        "primary_processing"; "processing_notes";
                        "hazardous_components"; "disposal_category";
                        "observations"; "confidence_score"])].

(** The [enum] list the schema emits for a property. *)
Definition schema_enum (prop : string) : option json :=
  props ← jget "properties" create_analysis_schema;
  entry ← jget prop props;
  jget "enum" entry.

Definition schema_required : option json :=
  jget "required" create_analysis_schema.

(** ** Numbers

    [json.loads] yields an [int] for an integer literal and a [float]
    otherwise (including [NaN] and [Infinity]). *)

Definition prec : Z := 53.
Definition emax : Z := 1024.

(** [float(z)] for an [int]: the nearest binary64, ties to even;
    [None] stands for [OverflowError]. *)
Definition float_of_int (z : Z) : option spec_float :=
  match binary_normalize prec emax z 0 false with
  | S754_infinity _ => None
  | f => Some f
  end.

(** [f == z] between a [float] and an [int] compares the exact values. *)
Definition float_eq_int (f : spec_float) (z : Z) : bool :=
  match f with
  | S754_zero _ => z =? 0
  | S754_finite s m e =>
      let sm := if s then Z.neg m else Z.pos m in
      if 0 <=? e then z =? sm * 2 ^ e else sm =? z * 2 ^ (- e)
  | _ => false
  end.

(** ** Pydantic models (lines 85-119) *)

Inductive error : Set :=
| MissingField (field : string)
| NoneNotAllowed (field : string)
| WrongType (field : string)
| NotAMember (field : string)
| IntTooLarge (field : string)
| NotAMapping.

Inductive result (A : Type) : Type :=
| Ok (a : A)
| Raise (e : error).
Arguments Ok {A} a.
Arguments Raise {A} e.

#[export] Instance result_ret : MRet result := fun A a => Ok a.
#[export] Instance result_bind : MBind result := fun A B f r =>
  match r with
  | Ok a => f a
  | Raise e => Raise e
  end.

Definition is_ok {A} (r : result A) : bool :=
  match r with
  | Ok _ => true
  | Raise _ => false
  end.

Definition or_raise {A} (e : error) (o : option A) : result A :=
  match o with
  | Some a => Ok a
  | None => Raise e
  end.

Record HazardousComponents : Type := {
  has_battery : bool;
  has_mercury : bool;
  has_lead : bool;
  has_capacitors : bool;
  has_toner : bool;
  has_data_storage : bool
}.

Record EWasteAnalysis : Type := {
  object_type : ObjectCategory;
  brand : option string;
  model : option string;
  condition : ConditionStatus;
  shred_safety : ShredSafety;
  safety_notes : list string;
  primary_processing : ProcessingMethod;
  preprocessing_steps : list string;
  processing_notes : string;
  hazardous_components : HazardousComponents;
  disposal_category : string;
  observations : string;
  confidence_score : spec_float
}.

(** Pydantic converts some values that are not of the declared type (the
    string ["0.5"] for a [float], [1] for a [bool], a list of pairs for a
    nested model in version 1, ...).  Which ones differs between its major
    versions, so this behaviour is a parameter: a policy says what a value
    of another type is converted to, if anything.  Values of the declared
    type, [None] and missing fields are handled the same by every version
    and are modelled directly. *)
Record Lax : Type := {
  lax_str : json -> option string;
  lax_bool : json -> option bool;
  lax_float : json -> option spec_float;
  lax_dict : json -> option (gmap string json)
}.

Definition strict : Lax := {|
  lax_str := fun _ => None;
  lax_bool := fun _ => None;
  lax_float := fun _ => None;
  lax_dict := fun _ => None
|}.

Section Validation.
Variable P : Lax.

Definition validate_str (field : string) (j : json) : result string :=
  match j with
  | JStr s => Ok s
  | JNull => Raise (NoneNotAllowed field)
  | _ => or_raise (WrongType field) (lax_str P j)
  end.

Definition validate_bool (field : string) (j : json) : result bool :=
  match j with
  | JBool b => Ok b
  | JNull => Raise (NoneNotAllowed field)
  | _ => or_raise (WrongType field) (lax_bool P j)
  end.

(** [float]: a float is kept as it is, an int goes through [float(v)]. *)
Definition validate_float (field : string) (j : json) : result spec_float :=
  match j with
  | JFloat f => Ok f
  | JInt z => or_raise (IntTooLarge field) (float_of_int z)
  | JNull => Raise (NoneNotAllowed field)
  | _ => or_raise (WrongType field) (lax_float P j)
  end.

(** An enumeration field calls the class on the value; only a string can
    equal the value of a member. *)
Definition validate_enum {E} `{StrEnum E} (field : string) (j : json)
  : result E :=
  match j with
  | JStr s => or_raise (NotAMember field) (of_value s)
  | JNull => Raise (NoneNotAllowed field)
  | _ => Raise (NotAMember field)
  end.

(** [Optional[str]] *)
Definition validate_optional_str (field : string) (j : json)
  : result (option string) :=
  match j with
  | JNull => Ok None
  | _ => s ← validate_str field j; Ok (Some s)
  end.

(** [List[str]] *)
Definition validate_str_list (field : string) (j : json)
  : result (list string) :=
  match j with
  | JArr l => mapM (validate_str field) l
  | JNull => Raise (NoneNotAllowed field)
  | _ => Raise (WrongType field)
  end.

(** A field without default is required. *)
Definition required {A} (m : gmap string json) (field : string)
    (validate : string -> json -> result A) : result A :=
  match m !! field with
  | Some j => validate field j
  | None => Raise (MissingField field)
  end.

(** A field with [default] or [default_factory]. *)
Definition with_default {A} (m : gmap string json) (field : string)
    (default : A) (validate : string -> json -> result A) : result A :=
  match m !! field with
  | Some j => validate field j
  | None => Ok default
  end.

(** [HazardousComponents] called with the entries of [m] as keyword
    arguments. *)
Definition HazardousComponents_init (m : gmap string json)
  : result HazardousComponents :=
  b ← required m "has_battery" validate_bool;
  hg ← required m "has_mercury" validate_bool;
  pb ← required m "has_lead" validate_bool;
  c ← required m "has_capacitors" validate_bool;
  t ← required m "has_toner" validate_bool;
  d ← required m "has_data_storage" validate_bool;
  Ok {| has_battery := b; has_mercury := hg; has_lead := pb;
        has_capacitors := c; has_toner := t; has_data_storage := d |}.

Definition validate_hazardous (field : string) (j : json)
  : result HazardousComponents :=
  match j with
  | JObj m => HazardousComponents_init m
  | JNull => Raise (NoneNotAllowed field)
  | _ => m ← or_raise (WrongType field) (lax_dict P j);
         HazardousComponents_init m
  end.

(** [EWasteAnalysis] called with the entries of [m] as keyword arguments;
    keys that are not fields are ignored.  Pydantic
    reports all failing fields at once; the first one is kept here, which
    does not change whether construction succeeds. *)
Definition EWasteAnalysis_init (m : gmap string json) : result EWasteAnalysis :=
  ot ← required m "object_type" validate_enum;
  br ← with_default m "brand" None validate_optional_str;
  mo ← with_default m "model" None validate_optional_str;
  co ← required m "condition" validate_enum;
  ss ← required m "shred_safety" validate_enum;
  sn ← with_default m "safety_notes" [] validate_str_list;
  pp ← required m "primary_processing" validate_enum;
  ps ← with_default m "preprocessing_steps" [] validate_str_list;
  pn ← required m "processing_notes" validate_str;
  hc ← required m "hazardous_components" validate_hazardous;
  dc ← required m "disposal_category" validate_str;
  ob ← required m "observations" validate_str;
  cs ← required m "confidence_score" validate_float;
  Ok {| object_type := ot; brand := br; model := mo; condition := co;
        shred_safety := ss; safety_notes := sn; primary_processing := pp;
        preprocessing_steps := ps; processing_notes := pn;
        hazardous_components := hc; disposal_category := dc;
        observations := ob; confidence_score := cs |}.

(** The call of line 248 on whatever [json.loads] returned: unpacking
    keyword arguments needs a mapping. *)
Definition EWasteAnalysis_of_json (j : json) : result EWasteAnalysis :=
  match j with
  | JObj m => EWasteAnalysis_init m
  | _ => Raise NotAMapping
  end.
End Validation.

(** The fields without a default, in declaration order. *)
Definition EWasteAnalysis_required : list string :=
  ["object_type"; "condition"; "shred_safety"; "primary_processing";
   "processing_notes"; "hazardous_components"; "disposal_category";
   "observations"; "confidence_score"].

Definition sample_hazards : gmap string json :=
  list_to_map [
    ("has_battery", JBool true); ("has_mercury", JBool false);
    ("has_lead", JBool false); ("has_capacitors", JBool false);
    ("has_toner", JBool false); ("has_data_storage", JBool true)].

(** A response as the remote model is asked to produce it. *)
Definition sample_response (confidence : json) : gmap string json :=
  list_to_map [
    ("object_type", JStr "Smartphone");
    ("brand", JStr "Apple");
    ("model", JNull);
    ("condition", JStr "Broken");
    ("shred_safety", JStr "Do Not Shred");
    ("safety_notes", jstrs ["Swollen battery"]);
    ("primary_processing", JStr "Battery Removal Required");
    ("processing_notes", JStr "Remove the battery before shredding.");
    ("hazardous_components", JObj sample_hazards);
    ("disposal_category", JStr "Hazardous");
    ("observations", JStr "Cracked screen");
    ("confidence_score", confidence)].

(** ** The outside world

    Console output and requests to the remote service are recorded as a
    trace; what the file system and the service answer is given by
    oracles.  [json.loads] belongs to the interpreter's library and is
    taken as an oracle as well. *)

Inductive read_outcome : Set :=
| ReadOk (text : string)
| FileNotFound
| ReadFails.

Record World : Type := {
  open_read : string -> read_outcome;
  upload_file : string -> option nat;
  generate_content : string -> nat -> json -> option string;
  json_loads : string -> option json
}.

Inductive exception : Set :=
| FileNotFoundError
| OtherIOError
| ServiceError
| JSONDecodeError
| ConstructionError (e : error).

Inductive event : Type :=
| Print (text : string)
| PrintError (e : exception)
| Upload (path : string)
| Generate (prompt : string) (image : nat) (schema : json).

Inductive outcome (A : Type) : Type :=
| Returns (a : A)
| Raises (e : exception).
Arguments Returns {A} a.
Arguments Raises {A} e.

(** A computation: the events it emitted and how it ended. *)
Definition io (A : Type) : Type := (list event * outcome A)%type.

#[export] Instance io_ret : MRet io := fun A a => ([], Returns a).
#[export] Instance io_bind : MBind io := fun A B f c =>
  match c with
  | (t, Returns a) => let '(t', o) := f a in ((t ++ t')%list, o)
  | (t, Raises e) => (t, Raises e)
  end.

Definition emit (ev : event) : io unit := ([ev], Returns tt).
Definition raise {A} (e : exception) : io A := ([], Raises e).

(** [try: body except ...: handler]; the handler says which exceptions
    it catches. *)
Definition try_except {A} (body : io A) (handler : exception -> option (io A))
  : io A :=
  match body with
  | (t, Raises e) =>
      match handler e with
      | Some h => let '(t', o) := h in ((t ++ t')%list, o)
      | None => (t, Raises e)
      end
  | finished => finished
  end.

(** [with open(path, "r") as f: f.read()] *)
Definition read_text (w : World) (path : string) : io string :=
  match open_read w path with
  | ReadOk text => mret text
  | FileNotFound => raise FileNotFoundError
  | ReadFails => raise OtherIOError
  end.

Definition call_upload (w : World) (path : string) : io nat :=
  _ ← emit (Upload path);
  match upload_file w path with
  | Some image => mret image
  | None => raise ServiceError
  end.

Definition call_generate (w : World) (prompt : string) (image : nat)
    (schema : json) : io string :=
  _ ← emit (Generate prompt image schema);
  match generate_content w prompt image schema with
  | Some text => mret text
  | None => raise ServiceError
  end.

Definition call_loads (w : World) (text : string) : io json :=
  match json_loads w text with
  | Some j => mret j
  | None => raise JSONDecodeError
  end.

Definition lift_result {A} (r : result A) : io A :=
  match r with
  | Ok a => mret a
  | Raise e => raise (ConstructionError e)
  end.

(** The prompts sent to the remote model, in order. *)
Definition submitted (t : list event) : list string :=
  omap (fun ev => match ev with
                  | Generate prompt _ _ => Some prompt
                  | _ => None
                  end) t.

(** ** Analysis request (lines 202-254) *)

Definition default_prompt_file : string := "prompts/prompt_main.md".

Definition default_prompt : string :=
  "You are an expert E-waste Safety Analyzer. Analyze the image and identify:" ++ nl ++
  "        1. The type of electronic device" ++ nl ++
  "        2. Its condition" ++ nl ++
  "        3. Whether it's safe to shred" ++ nl ++
  "        4. Any hazardous components" ++ nl ++
  "        5. Processing instructions" ++ nl ++
  "        " ++ nl ++
  "        Focus on safety and provide clear guidance.".

(** The text of the warning printed at line 223. *)
Definition missing_prompt_warning (prompt_file : string) : string :=
  "Warning: Prompt file '" ++ prompt_file ++ "' not found. Using default prompt.".

(** Truth value of a [str]. *)
Definition nonempty (s : string) : bool :=
  match s with
  | EmptyString => false
  | String _ _ => true
  end.

(** Lines 214-232: the first [try] block. *)
Definition resolve_prompt (w : World) (prompt_file additional_context : string)
  : io string :=
  try_except
    (prompt ← read_text w prompt_file;
     if nonempty additional_context
     then mret (prompt ++ nl ++ nl ++ "Additional context: " ++ additional_context)
     else mret prompt)
    (fun e =>
       match e with
       | FileNotFoundError =>
           Some (_ ← emit (Print (missing_prompt_warning prompt_file));
                 mret default_prompt)
       | _ => None
       end).

(** Lines 234-254: the second [try] block.  Creating the client object
    for the remote model (line 235) sends nothing; reading [response.text]
    is part of the answer of [generate_content].  Whatever is raised is
    printed and raised again. *)
Definition request_analysis (P : Lax) (w : World) (image_file prompt : string)
  : io EWasteAnalysis :=
  try_except
    (image ← call_upload w image_file;
     text ← call_generate w prompt image create_analysis_schema;
     result_dict ← call_loads w text;
     lift_result (EWasteAnalysis_of_json P result_dict))
    (fun e => Some (_ ← emit (PrintError e); raise e)).

Definition analyze_ewaste (P : Lax) (w : World)
    (image_file prompt_file additional_context : string) : io EWasteAnalysis :=
  prompt ← resolve_prompt w prompt_file additional_context;
  request_analysis P w image_file prompt.

(** ** Report renderer (lines 256-314) *)

(** *** The clock *)

Record datetime : Set := {
  year : nat; month : nat; day : nat;
  hour : nat; minute : nat; second : nat
}.

(** Successive readings of the system clock. *)
Record Clock : Type := {
  readings : nat -> datetime;
  reads : nat
}.

Definition datetime_now (c : Clock) : datetime * Clock :=
  (readings c (reads c), {| readings := readings c; reads := S (reads c) |}).

Definition zfill (width : nat) (s : string) : string :=
  String.concat "" (List.repeat "0" (width - String.length s)) ++ s.

(** [strftime('%Y-%m-%d %H:%M:%S')] *)
Definition strftime (t : datetime) : string :=
  zfill 4 (pretty (year t)) ++ "-" ++ zfill 2 (pretty (month t)) ++ "-" ++
  zfill 2 (pretty (day t)) ++ " " ++ zfill 2 (pretty (hour t)) ++ ":" ++
  zfill 2 (pretty (minute t)) ++ ":" ++ zfill 2 (pretty (second t)).

(** *** Number formatting *)

Definition float_100 : spec_float := binary_normalize prec emax 100 0 false.

(** The exact value [m * 2^e] times ten, rounded to an integer, ties to
    even: the digits of the ['f'] presentation with one decimal place. *)
Definition tenths (m : positive) (e : Z) : Z :=
  if 0 <=? e then Z.pos m * 2 ^ e * 10
  else
    let n := Z.pos m * 10 in
    let d := 2 ^ (- e) in
    let q := n / d in
    let r := n mod d in
    match 2 * r ?= d with
    | Lt => q
    | Gt => q + 1
    | Eq => if Z.even q then q else q + 1
    end.

Definition sign_str (s : bool) : string := if s then "-" else "".

(** [format(x, '.1%')]: multiply by 100 in binary64, then fixed-point with
    one decimal and a percent sign. *)
Definition format_percent1 (x : spec_float) : string :=
  match SFmul prec emax x float_100 with
  | S754_nan => "nan%"
  | S754_infinity s => sign_str s ++ "inf%"
  | S754_zero s => sign_str s ++ "0.0%"
  | S754_finite s m e =>
      let t := tenths m e in
      sign_str s ++ pretty (t / 10) ++ "." ++ pretty (t mod 10) ++ "%"
  end.

(** *** Template text *)

Definition box_top : string :=
  "â•”â•â•â•â•â•â•â•â•â•â•â•â•â•â•â•â•â•â•â•â•â•â•â•â•â•â•â•â•â•â•â•â•â•â•â•â•â•â•â•â•â•â•â•â•â•â•â•â•â•â•â•â•â•â•â•â•â•â•â•â•â•—".

Definition box_title : string :=
  "â•‘          E-WASTE SAFETY & PROCESSING REPORT               â•‘".

Definition box_time_left : string :=
  "â•‘                ".

Definition box_time_right : string :=
  "                     â•‘".

Definition box_bottom : string :=
  "â•šâ•â•â•â•â•â•â•â•â•â•â•â•â•â•â•â•â•â•â•â•â•â•â•â•â•â•â•â•â•â•â•â•â•â•â•â•â•â•â•â•â•â•â•â•â•â•â•â•â•â•â•â•â•â•â•â•â•â•â•â•â•".

Definition identification_heading : string :=
  "ğŸ“¦ ITEM IDENTIFICATION".

Definition rule : string :=
  "â”â”â”â”â”â”â”â”â”â”â”â”â”â”â”â”â”â”â”â”â”â”â”â”â”â”â”â”â”â”â”â”â”â”â”â”â”â”â”â”â”â”â”â”â”â”â”â”â”â”â”â”â”â”â”â”".

Definition safety_heading : string :=
  "âš ï¸  SAFETY ASSESSMENT".

Definition note_bullet : string :=
  "  âš¡ ".

Definition hazard_heading : string :=
  "â˜£ï¸  HAZARDOUS COMPONENTS".

Definition yes_mark : string :=
  "âš ï¸ YES".

Definition no_mark : string :=
  "âœ“ No".

Definition processing_heading : string :=
  "ğŸ”§ PROCESSING INSTRUCTIONS".

Definition observations_heading : string :=
  "ğŸ“ ADDITIONAL OBSERVATIONS".

Definition closing_rule : string :=
  "â•â•â•â•â•â•â•â•â•â•â•â•â•â•â•â•â•â•â•â•â•â•â•â•â•â•â•â•â•â•â•â•â•â•â•â•â•â•â•â•â•â•â•â•â•â•â•â•â•â•â•â•â•â•â•â•â•â•â•â•".

(** [x or default] on an [Optional[str]]: [None] and the empty string are
    both false. *)
Definition or_default (x : option string) (default : string) : string :=
  match x with
  | Some s => if nonempty s then s else default
  | None => default
  end.

Definition hazard_mark (present : bool) : string :=
  if present then yes_mark else no_mark.

(** Lines 286-291. *)
Definition hazard_lines (h : HazardousComponents) : list string :=
  ["Battery: " ++ hazard_mark (has_battery h);
   "Mercury: " ++ hazard_mark (has_mercury h);
   "Lead: " ++ hazard_mark (has_lead h);
   "Capacitors: " ++ hazard_mark (has_capacitors h);
   "Toner/Ink: " ++ hazard_mark (has_toner h);
   "Data Storage: " ++ hazard_mark (has_data_storage h)].

(** Each line followed by a newline. *)
Definition unlines (ls : list string) : string :=
  String.concat "" (List.map (fun l => l ++ nl) ls).

Section Render.
Variable mode : enum_format.

(** Lines 259-265: the banner with the time stamp, and the first heading. *)
Definition banner (now : datetime) : string :=
  nl ++ unlines [
    box_top;
    box_title;
    box_time_left ++ strftime now ++ box_time_right;
    box_bottom;
    "";
    identification_heading;
    rule].

(** Lines 266-270. *)
Definition identification_lines (a : EWasteAnalysis) : list string :=
  ["Type: " ++ format_enum mode (object_type a);
   "Brand: " ++ or_default (brand a) "Not identified";
   "Model: " ++ or_default (model a) "Not identified";
   "Condition: " ++ format_enum mode (condition a);
   "Confidence: " ++ format_percent1 (confidence_score a)].

(** Lines 271-275. *)
Definition safety_lines (a : EWasteAnalysis) : list string :=
  [""; safety_heading; rule;
   "Shred Safety: " ++ format_enum mode (shred_safety a);
   "Disposal Category: " ++ disposal_category a].

(** Lines 278-281. *)
Definition safety_concerns (a : EWasteAnalysis) : string :=
  match safety_notes a with
  | [] => ""
  | notes =>
      nl ++ "Safety Concerns:" ++ nl ++
      unlines (List.map (fun note => note_bullet ++ note) notes)
  end.

(** Lines 292-298. *)
Definition processing_lines (a : EWasteAnalysis) : list string :=
  [""; processing_heading; rule;
   "Primary Method: " ++ format_enum mode (primary_processing a);
   "";
   "Processing Notes:";
   processing_notes a].

(** Lines 301-304: steps numbered from 1. *)
Fixpoint numbered (i : nat) (steps : list string) : list string :=
  match steps with
  | [] => []
  | step :: rest => ("  " ++ pretty i ++ ". " ++ step) :: numbered (S i) rest
  end.

Definition preprocessing (a : EWasteAnalysis) : string :=
  match preprocessing_steps a with
  | [] => ""
  | steps => nl ++ "Preprocessing Required:" ++ nl ++ unlines (numbered 1 steps)
  end.

(** Lines 306-312. *)
Definition closing (a : EWasteAnalysis) : string :=
  nl ++ unlines [observations_heading; rule; observations a; ""; closing_rule].

(** The report for a given reading of the clock. *)
Definition render (now : datetime) (a : EWasteAnalysis) : string :=
  banner now ++ unlines (identification_lines a) ++ unlines (safety_lines a) ++
  safety_concerns a ++
  nl ++ unlines [hazard_heading; rule] ++ unlines (hazard_lines (hazardous_components a)) ++
  unlines (processing_lines a) ++
  preprocessing a ++
  closing a.

(** The clock is read once, while the first template is formatted. *)
Definition generate_processing_report (analysis : EWasteAnalysis) (c : Clock)
  : string * Clock :=
  let '(now, c') := datetime_now c in
  (render now analysis, c').
End Render.

(** Splitting a text into its lines. *)
Fixpoint lines_from (cur : string) (s : string) : list string :=
  match s with
  | EmptyString => [String.rev cur]
  | String c rest =>
      if Ascii.eqb c (ascii_of_nat 10)
      then String.rev cur :: lines_from "" rest
      else lines_from (String c cur) rest
  end.

Definition lines (s : string) : list string := lines_from "" s.

(** ** Inputs of the declared types

    What the statements below mean by a JSON object that supplies the
    fields with values of the declared types, and by a record whose fields
    equal the input values. *)

Definition is_label (E : Type) `{StrEnum E} (j : option json) : bool :=
  match j with
  | Some (JStr s) => bool_decide (s ∈ values E)
  | _ => false
  end.

Definition is_bool (j : option json) : bool :=
  match j with
  | Some (JBool _) => true
  | _ => false
  end.

Definition is_str (j : option json) : bool :=
  match j with
  | Some (JStr _) => true
  | _ => false
  end.

Definition is_number (j : option json) : bool :=
  match j with
  | Some (JInt _) | Some (JFloat _) => true
  | _ => false
  end.

(** An optional string may be left out, be [null] or be a string. *)
Definition is_optional_str (j : option json) : bool :=
  match j with
  | None | Some JNull | Some (JStr _) => true
  | _ => false
  end.

(** A list of strings may be left out. *)
Definition is_str_list (j : option json) : bool :=
  match j with
  | None => true
  | Some (JArr l) => forallb (fun x => is_str (Some x)) l
  | _ => false
  end.

Definition is_hazards (j : option json) : bool :=
  match j with
  | Some (JObj h) =>
      is_bool (h !! "has_battery") && is_bool (h !! "has_mercury") &&
      is_bool (h !! "has_lead") && is_bool (h !! "has_capacitors") &&
      is_bool (h !! "has_toner") && is_bool (h !! "has_data_storage")
  | _ => false
  end.

Definition well_formed (m : gmap string json) : bool :=
  is_label ObjectCategory (m !! "object_type") &&
  is_optional_str (m !! "brand") &&
  is_optional_str (m !! "model") &&
  is_label ConditionStatus (m !! "condition") &&
  is_label ShredSafety (m !! "shred_safety") &&
  is_str_list (m !! "safety_notes") &&
  is_label ProcessingMethod (m !! "primary_processing") &&
  is_str_list (m !! "preprocessing_steps") &&
  is_str (m !! "processing_notes") &&
  is_hazards (m !! "hazardous_components") &&
  is_str (m !! "disposal_category") &&
  is_str (m !! "observations") &&
  is_number (m !! "confidence_score").

Definition same_label {E} `{StrEnum E} (j : option json) (e : E) : Prop :=
  j = Some (JStr (value e)).

Definition same_str (j : option json) (s : string) : Prop :=
  j = Some (JStr s).

Definition same_bool (j : option json) (b : bool) : Prop :=
  j = Some (JBool b).

(** A field left out holds its default. *)
Definition same_optional_str (j : option json) (x : option string) : Prop :=
  match j with
  | None | Some JNull => x = None
  | Some (JStr s) => x = Some s
  | _ => False
  end.

Definition same_str_list (j : option json) (l : list string) : Prop :=
  match j with
  | None => l = []
  | Some (JArr js) => js = JStr <$> l
  | _ => False
  end.

Definition same_hazards (j : option json) (h : HazardousComponents) : Prop :=
  match j with
  | Some (JObj d) =>
      same_bool (d !! "has_battery") (has_battery h) /\
      same_bool (d !! "has_mercury") (has_mercury h) /\
      same_bool (d !! "has_lead") (has_lead h) /\
      same_bool (d !! "has_capacitors") (has_capacitors h) /\
      same_bool (d !! "has_toner") (has_toner h) /\
      same_bool (d !! "has_data_storage") (has_data_storage h)
  | _ => False
  end.

(** A float is stored as it is; an integer and the stored float are
    compared as numbers. *)
Definition same_number (j : option json) (f : spec_float) : Prop :=
  match j with
  | Some (JFloat g) => f = g
  | Some (JInt z) => float_eq_int f z = true
  | _ => False
  end.

(** Every field but the confidence score equals its input. *)
Record round_trips_labels (m : gmap string json) (r : EWasteAnalysis) : Prop := {
  rt_object_type : same_label (m !! "object_type") (object_type r);
  rt_brand : same_optional_str (m !! "brand") (brand r);
  rt_model : same_optional_str (m !! "model") (model r);
  rt_condition : same_label (m !! "condition") (condition r);
  rt_shred_safety : same_label (m !! "shred_safety") (shred_safety r);
  rt_safety_notes : same_str_list (m !! "safety_notes") (safety_notes r);
  rt_primary_processing :
    same_label (m !! "primary_processing") (primary_processing r);
  rt_preprocessing_steps :
    same_str_list (m !! "preprocessing_steps") (preprocessing_steps r);
  rt_processing_notes : same_str (m !! "processing_notes") (processing_notes r);
  rt_hazardous_components :
    same_hazards (m !! "hazardous_components") (hazardous_components r);
  rt_disposal_category :
    same_str (m !! "disposal_category") (disposal_category r);
  rt_observations : same_str (m !! "observations") (observations r)
}.

Definition round_trips (m : gmap string json) (r : EWasteAnalysis) : Prop :=
  round_trips_labels m r /\
  same_number (m !! "confidence_score") (confidence_score r).

(** The confidence score is a float, or an integer that binary64 holds
    exactly because its magnitude is at most [2^53]. *)
Definition exact_number (j : option json) : Prop :=
  match j with
  | Some (JInt z) => Z.abs z <= 2 ^ 53
  | _ => True
  end.

(** A number outside the interval from 0 to 1. *)
Definition outside_unit_interval (j : option json) : bool :=
  match j with
  | Some (JInt z) => (z <? 0) || (1 <? z)
  | Some (JFloat f) =>
      SFltb f (S754_zero false) || SFltb (binary_normalize prec emax 1 0 false) f
  | _ => false
  end.

(** ** Sample data *)

Definition sample_clock : Clock :=
  {| readings := fun n => {| year := 2025; month := 1; day := 9;
                             hour := 8; minute := 5; second := n |};
     reads := 0 |}.

(** The binary64 nearest to 0.87: 87 and 100 are exact and the division
    rounds once. *)
Definition float_087 : spec_float :=
  SFdiv prec emax (binary_normalize prec emax 87 0 false) float_100.

Definition float_2_5 : spec_float :=
  SFdiv prec emax (binary_normalize prec emax 5 0 false)
                  (binary_normalize prec emax 2 0 false).

Definition sample_analysis : EWasteAnalysis := {|
  object_type := SMARTPHONE;
  brand := Some "Apple";
  model := None;
  condition := BROKEN;
  shred_safety := DO_NOT_SHRED;
  safety_notes := ["Swollen battery"];
  primary_processing := BATTERY_REMOVAL;
  preprocessing_steps := ["Discharge"; "Remove battery"];
  processing_notes := "Remove the battery before shredding.";
  hazardous_components := {|
    has_battery := true; has_mercury := false; has_lead := false;
    has_capacitors := false; has_toner := false; has_data_storage := false |};
  disposal_category := "Hazardous";
  observations := "Cracked screen";
  confidence_score := float_087
|}.

Definition sample_service (answer : json) (prompt_text : option string) : World := {|
  open_read := fun path =>
    match prompt_text with
    | Some text => if String.eqb path default_prompt_file then ReadOk text
                   else FileNotFound
    | None => FileNotFound
    end;
  upload_file := fun _ => Some 0%nat;
  generate_content := fun _ _ _ => Some "{}";
  json_loads := fun _ => Some answer
|}.

Definition sample_answer : json := JObj (sample_response (JFloat float_087)).

(** A clock that agrees with [sample_clock] on the next reading only. *)
Definition other_clock : Clock :=
  {| readings := fun n =>
       match n with
       | O => readings sample_clock 0
       | S _ => {| year := 2031; month := 12; day := 31;
                   hour := 23; minute := 59; second := 59 |}
       end;
     reads := 0 |}.

Definition with_brand (x : option string) (a : EWasteAnalysis) : EWasteAnalysis := {|
  object_type := object_type a; brand := x; model := model a;
  condition := condition a; shred_safety := shred_safety a;
  safety_notes := safety_notes a; primary_processing := primary_processing a;
  preprocessing_steps := preprocessing_steps a;
  processing_notes := processing_notes a;
  hazardous_components := hazardous_components a;
  disposal_category := disposal_category a; observations := observations a;
  confidence_score := confidence_score a
|}.

Definition with_model (x : option string) (a : EWasteAnalysis) : EWasteAnalysis := {|
  object_type := object_type a; brand := brand a; model := x;
  condition := condition a; shred_safety := shred_safety a;
  safety_notes := safety_notes a; primary_processing := primary_processing a;
  preprocessing_steps := preprocessing_steps a;
  processing_notes := processing_notes a;
  hazardous_components := hazardous_components a;
  disposal_category := disposal_category a; observations := observations a;
  confidence_score := confidence_score a
|}.

(** ** Serialisation (line 339)

    [analysis.dict()] as [json.dump] writes it: every field is present, an
    enumeration member (a [str]) is written as its value, [None] as
    [null], the nested model as a nested object. *)

Definition json_of_optional_str (x : option string) : json :=
  match x with
  | Some s => JStr s
  | None => JNull
  end.

Definition HazardousComponents_dict (h : HazardousComponents) : gmap string json :=
  list_to_map [
    ("has_battery", JBool (has_battery h));
    ("has_mercury", JBool (has_mercury h));
    ("has_lead", JBool (has_lead h));
    ("has_capacitors", JBool (has_capacitors h));
    ("has_toner", JBool (has_toner h));
    ("has_data_storage", JBool (has_data_storage h))].

Definition EWasteAnalysis_dict (a : EWasteAnalysis) : gmap string json :=
  list_to_map [
    ("object_type", JStr (value (object_type a)));
    ("brand", json_of_optional_str (brand a));
    ("model", json_of_optional_str (model a));
    ("condition", JStr (value (condition a)));
    ("shred_safety", JStr (value (shred_safety a)));
    ("safety_notes", jstrs (safety_notes a));
    ("primary_processing", JStr (value (primary_processing a)));
    ("preprocessing_steps", jstrs (preprocessing_steps a));
    ("processing_notes", JStr (processing_notes a));
    ("hazardous_components", JObj (HazardousComponents_dict (hazardous_components a)));
    ("disposal_category", JStr (disposal_category a));
    ("observations", JStr (observations a));
    ("confidence_score", JFloat (confidence_score a))].

(** The fields of the two models, in declaration order. *)
Definition EWasteAnalysis_fields : list string :=
  ["object_type"; "brand"; "model"; "condition"; "shred_safety";
   "safety_notes"; "primary_processing"; "preprocessing_steps";
   "processing_notes"; "hazardous_components"; "disposal_category";
   "observations"; "confidence_score"].

Definition HazardousComponents_fields : list string :=
  ["has_battery"; "has_mercury"; "has_lead"; "has_capacitors"; "has_toner";
   "has_data_storage"].

(** The enumeration fields with the values each one accepts. *)
Definition enum_fields : list (string * list string) :=
  [("object_type", values ObjectCategory);
   ("condition", values ConditionStatus);
   ("shred_safety", values ShredSafety);
   ("primary_processing", values ProcessingMethod)].

Definition hazard_flags (h : HazardousComponents) : list bool :=
  [has_battery h; has_mercury h; has_lead h; has_capacitors h; has_toner h;
   has_data_storage h].

(** *** What the schema literal lists *)

Definition json_strings (j : json) : list string :=
  match j with
  | JArr l => omap (fun x => match x with JStr s => Some s | _ => None end) l
  | _ => []
  end.

Definition schema_required_names : list string :=
  match schema_required with
  | Some j => json_strings j
  | None => []
  end.

Definition schema_properties : gmap string json :=
  match jget "properties" create_analysis_schema with
  | Some (JObj props) => props
  | _ => ∅
  end.

Definition schema_declares (k : string) : bool :=
  bool_decide (is_Some (schema_properties !! k)).

(** ** Script body (lines 317-343) *)

Definition image_path : string := "images/iphone.jpeg".

Definition analyzing_message : string :=
  "ğŸ” Analyzing e-waste image...".

Definition report_saved_prefix : string :=
  "ğŸ“„ Report saved to ".

Definition json_saved_prefix : string :=
  "ğŸ’¾ JSON data saved to ".

(** [strftime("%Y%m%d_%H%M%S")] *)
Definition strftime_compact (t : datetime) : string :=
  zfill 4 (pretty (year t)) ++ zfill 2 (pretty (month t)) ++
  zfill 2 (pretty (day t)) ++ "_" ++ zfill 2 (pretty (hour t)) ++
  zfill 2 (pretty (minute t)) ++ zfill 2 (pretty (second t)).

Definition report_filename (timestamp : string) : string :=
  "ewaste_report_" ++ timestamp ++ ".txt".

Definition json_filename (timestamp : string) : string :=
  "ewaste_analysis_" ++ timestamp ++ ".json".

(** What the script does to the outside: the events of the analysis and
    its own console lines, the two files, and the last line printed when
    something was raised. *)
Inductive effect : Type :=
| Console (ev : event)
| WriteText (path content : string)
| DumpJson (path : string) (data : gmap string json)
| PrintFailure (e : exception).

(** A file is opened for writing; [writable] says whether that succeeds,
    and a failure is an [OSError].  Every exception is caught at line 342,
    printed, and the script ends. *)
Definition script (P : Lax) (mode : enum_format) (w : World)
    (writable : string -> bool) (c : Clock) : list effect * Clock :=
  let started := [Console (Print analyzing_message)] in
  match analyze_ewaste P w image_path default_prompt_file "" with
  | (t, Raises e) =>
      ((started ++ List.map Console t ++ [PrintFailure e])%list, c)
  | (t, Returns analysis) =>
      let '(report, c1) := generate_processing_report mode analysis c in
      let printed :=
        (started ++ List.map Console t ++ [Console (Print report)])%list in
      let '(now, c2) := datetime_now c1 in
      let timestamp := strftime_compact now in
      if writable (report_filename timestamp) then
        let report_done :=
          [WriteText (report_filename timestamp) report;
           Console (Print (report_saved_prefix ++ report_filename timestamp))] in
        if writable (json_filename timestamp) then
          ((printed ++ report_done ++
            [DumpJson (json_filename timestamp) (EWasteAnalysis_dict analysis);
             Console (Print (json_saved_prefix ++ json_filename timestamp))])%list,
           c2)
        else ((printed ++ report_done ++ [PrintFailure OtherIOError])%list, c2)
      else ((printed ++ [PrintFailure OtherIOError])%list, c2)
  end.

Definition files_written (effects : list effect) : list string :=
  omap (fun ef => match ef with
                  | WriteText path _ => Some path
                  | DumpJson path _ => Some path
                  | _ => None
                  end) effects.

(** The record that the sample answer describes. *)
Definition sample_record : EWasteAnalysis := {|
  object_type := SMARTPHONE;
  brand := Some "Apple";
  model := None;
  condition := BROKEN;
  shred_safety := DO_NOT_SHRED;
  safety_notes := ["Swollen battery"];
  primary_processing := BATTERY_REMOVAL;
  preprocessing_steps := [];
  processing_notes := "Remove the battery before shredding.";
  hazardous_components := {|
    has_battery := true; has_mercury := false; has_lead := false;
    has_capacitors := false; has_toner := false; has_data_storage := true |};
  disposal_category := "Hazardous";
  observations := "Cracked screen";
  confidence_score := float_087
|}.

(** * Properties *)

(** ** Strings *)

Lemma append_assoc (a b c : string) : (a ++ b) ++ c = a ++ (b ++ c).
Proof.
  induction a as [|ch a IH]; [reflexivity|].
  change (String ch ((a ++ b) ++ c) = String ch (a ++ (b ++ c))).
  now rewrite IH.
Qed.

Lemma append_nil_r (a : string) : a ++ "" = a.
Proof.
  induction a as [|ch a IH]; [reflexivity|].
  change (String ch (a ++ "") = String ch a).
  now rewrite IH.
Qed.

Lemma unlines_cons (l : string) (ls : list string) :
  unlines (l :: ls) = l ++ nl ++ unlines ls.
Proof.
  unfold unlines. destruct ls as [|l' ls]; cbn [List.map String.concat].
  - now rewrite append_nil_r.
  - change ((l ++ nl) ++ "" ++ String.concat "" ((l' ++ nl) :: List.map (fun l0 => l0 ++ nl) ls)
            = l ++ nl ++ String.concat "" ((l' ++ nl) :: List.map (fun l0 => l0 ++ nl) ls)).
    now rewrite append_assoc.
Qed.

Lemma unlines_app (xs ys : list string) :
  unlines (xs ++ ys)%list = unlines xs ++ unlines ys.
Proof.
  induction xs as [|x xs IH]; [reflexivity|].
  change ((x :: xs) ++ ys)%list with (x :: (xs ++ ys)%list).
  rewrite !unlines_cons, IH, !append_assoc. reflexivity.
Qed.

(** ** Enumerations *)

Lemma ObjectCategory_members_all (e : ObjectCategory) : e ∈ members (E := ObjectCategory).
Proof. destruct e; cbn; set_solver. Qed.

Lemma ConditionStatus_members_all (e : ConditionStatus) : e ∈ members (E := ConditionStatus).
Proof. destruct e; cbn; set_solver. Qed.

Lemma ShredSafety_members_all (e : ShredSafety) : e ∈ members (E := ShredSafety).
Proof. destruct e; cbn; set_solver. Qed.

Lemma ProcessingMethod_members_all (e : ProcessingMethod) : e ∈ members (E := ProcessingMethod).
Proof. destruct e; cbn; set_solver. Qed.

(** No declared name is an alias of an earlier one. *)
Lemma enumerations_without_alias :
  no_alias ObjectCategory = true /\ no_alias ConditionStatus = true /\
  no_alias ShredSafety = true /\ no_alias ProcessingMethod = true.
Proof. repeat split; vm_compute; reflexivity. Qed.

(** Looking a value up finds a member with that value. *)
Lemma of_value_elem {E} `{StrEnum E} (s : string) :
  s ∈ values E -> exists e : E, of_value s = Some e /\ value e = s.
Proof.
  unfold values, of_value. induction (members (E := E)) as [|x xs IH]; cbn.
  - intros Hin. inversion Hin.
  - intros Hin. destruct (String.eqb_spec (value x) s) as [Heq|Hne].
    + exists x. split; [reflexivity|exact Heq].
    + apply elem_of_cons in Hin as [Hin|Hin]; [congruence|].
      apply IH, Hin.
Qed.

Lemma of_value_value {E} `{StrEnum E} (s : string) (e : E) :
  of_value s = Some e -> value e = s.
Proof.
  unfold of_value. intros Hf. apply List.find_some in Hf as [_ Heq].
  now apply String.eqb_eq in Heq.
Qed.

(** ** Schema builder *)

(** C1: for each of the four enumerations, the [enum] list of the schema
    property that carries it (object_type, condition, shred_safety,
    primary_processing) is the list of the values of the members of that
    enumeration, in definition order. *)
Theorem schema_enum_lists :
  schema_enum "object_type"
    = Some (JArr (JStr <$> List.map value (members (E := ObjectCategory)))) /\
  schema_enum "condition"
    = Some (JArr (JStr <$> List.map value (members (E := ConditionStatus)))) /\
  schema_enum "shred_safety"
    = Some (JArr (JStr <$> List.map value (members (E := ShredSafety)))) /\
  schema_enum "primary_processing"
    = Some (JArr (JStr <$> List.map value (members (E := ProcessingMethod)))).
Proof. repeat split; vm_compute; reflexivity. Qed.

(** The schema requires the fields that the model declares without default. *)
Lemma schema_required_fields :
  schema_required = Some (jstrs EWasteAnalysis_required).
Proof. vm_compute. reflexivity. Qed.

(** ** Conversion of an integer to binary64 *)

Lemma digits2_pos_lower (p : positive) :
  2 ^ (Z.pos (digits2_pos p) - 1) <= Z.pos p.
Proof.
  induction p as [p IH|p IH|]; cbn [digits2_pos].
  - rewrite Pos2Z.inj_succ.
    replace (Z.succ (Z.pos (digits2_pos p)) - 1)
      with (Z.succ (Z.pos (digits2_pos p) - 1)) by lia.
    rewrite Z.pow_succ_r by lia. lia.
  - rewrite Pos2Z.inj_succ.
    replace (Z.succ (Z.pos (digits2_pos p)) - 1)
      with (Z.succ (Z.pos (digits2_pos p) - 1)) by lia.
    rewrite Z.pow_succ_r by lia. lia.
  - reflexivity.
Qed.

Lemma digits2_pos_le_53 (p : positive) :
  Z.pos p < 2 ^ 53 -> Z.pos (digits2_pos p) <= 53.
Proof.
  intros Hp. pose proof (digits2_pos_lower p) as Hlow.
  destruct (Z_le_gt_dec (Z.pos (digits2_pos p)) 53) as [Hle|Hgt]; [exact Hle|].
  exfalso.
  assert (2 ^ 53 <= 2 ^ (Z.pos (digits2_pos p) - 1)) by (apply Z.pow_le_mono_r; lia).
  lia.
Qed.

(** Shifting left by [k] bits adds [k] digits and multiplies by [2^k]. *)
Lemma iter_xO_spec (p k : positive) :
  digits2_pos (Pos.iter xO p k) = (digits2_pos p + k)%positive /\
  Z.pos (Pos.iter xO p k) = Z.pos p * 2 ^ Z.pos k.
Proof.
  induction k as [|k [IHd IHv]] using Pos.peano_ind.
  - cbn [Pos.iter digits2_pos]. split; [lia|].
    change (2 ^ 1) with 2. lia.
  - rewrite Pos.iter_succ. cbn [digits2_pos]. rewrite IHd. split; [lia|].
    rewrite Pos2Z.inj_succ, Z.pow_succ_r by lia.
    rewrite Pos2Z.inj_xO, IHv. lia.
Qed.

(** A mantissa of 53 bits with an exponent in range is kept as it is. *)
Lemma binary_round_aux_exact (s : bool) (m : positive) (e : Z) :
  digits2_pos m = 53%positive -> -1074 <= e <= 971 ->
  binary_round_aux prec emax s (Z.pos m) e loc_Exact = S754_finite s m e.
Proof.
  intros Hd He.
  unfold binary_round_aux, shr_fexp, Zdigits2, fexp, emin, prec, emax.
  rewrite Hd.
  replace (Z.max (53 + e - 53) (3 - 1024 - 53) - e) with 0 by lia.
  cbn [shr shr_record_of_loc shr_m loc_of_shr_record round_nearest_even Zdigits2].
  rewrite Hd.
  replace (Z.max (53 + e - 53) (3 - 1024 - 53) - e) with 0 by lia.
  cbn [shr shr_record_of_loc shr_m].
  destruct (Z.leb_spec e (1024 - 53)) as [_|Hbad]; [reflexivity|lia].
Qed.

(** An integer of at most 53 bits is normalised without rounding. *)
Lemma binary_round_small (s : bool) (p : positive) :
  Z.pos p < 2 ^ 53 ->
  exists m e, binary_round prec emax s p 0 = S754_finite s m e /\
              e <= 0 /\ Z.pos m = Z.pos p * 2 ^ (- e).
Proof.
  intros Hp. pose proof (digits2_pos_le_53 p Hp) as Hd.
  unfold binary_round, shl_align, fexp, emin.
  replace (Z.max (Z.pos (digits2_pos p) + 0 - prec) (3 - emax - prec) - 0)
    with (Z.pos (digits2_pos p) - 53) by (unfold prec, emax; lia).
  destruct (Z.pos (digits2_pos p) - 53) as [|k|k] eqn:Hk; [|lia|].
  - exists p, 0. split; [|split; [lia|cbn; lia]].
    replace (Z.max (Z.pos (digits2_pos p) + 0 - prec) (3 - emax - prec))
      with 0 by (unfold prec, emax; lia).
    apply binary_round_aux_exact; lia.
  - destruct (iter_xO_spec p k) as [Hdig Hval].
    exists (Pos.iter xO p k), (Z.neg k). split; [|split; [lia|]].
    + replace (Z.max (Z.pos (digits2_pos p) + 0 - prec) (3 - emax - prec))
        with (Z.neg k) by (unfold prec, emax; lia).
      apply binary_round_aux_exact; [|lia].
      rewrite Hdig. lia.
    + rewrite Hval. reflexivity.
Qed.

Lemma float_of_int_exact_below (z : Z) :
  Z.abs z < 2 ^ 53 ->
  exists f, float_of_int z = Some f /\ float_eq_int f z = true.
Proof.
  intros Hz. unfold float_of_int, binary_normalize.
  destruct z as [|p|p].
  - exists (S754_zero false). split; reflexivity.
  - destruct (binary_round_small false p) as (m & e & -> & He & Hm); [lia|].
    exists (S754_finite false m e). split; [reflexivity|].
    unfold float_eq_int.
    destruct (Z.leb_spec 0 e) as [He0|He0].
    + assert (e = 0) as -> by lia. apply Z.eqb_eq. cbn in Hm. lia.
    + apply Z.eqb_eq. exact Hm.
  - destruct (binary_round_small true p) as (m & e & -> & He & Hm); [lia|].
    exists (S754_finite true m e). split; [reflexivity|].
    unfold float_eq_int.
    destruct (Z.leb_spec 0 e) as [He0|He0].
    + assert (e = 0) as -> by lia. apply Z.eqb_eq. cbn in Hm. lia.
    + apply Z.eqb_eq. lia.
Qed.

(** Every integer of magnitude at most [2^53] converts to a float of the
    same value. *)
Lemma float_of_int_exact (z : Z) :
  Z.abs z <= 2 ^ 53 ->
  exists f, float_of_int z = Some f /\ float_eq_int f z = true.
Proof.
  intros Hz.
  destruct (Z_lt_le_dec (Z.abs z) (2 ^ 53)) as [Hlt|Hge].
  - apply float_of_int_exact_below, Hlt.
  - assert (z = 2 ^ 53 \/ z = - 2 ^ 53) as [-> | ->] by lia.
    + eexists. split; vm_compute; reflexivity.
    + eexists. split; vm_compute; reflexivity.
Qed.

(** ** Record construction *)

Section FieldValidation.
Variable P : Lax.
Variable m : gmap string json.
Variable k : string.

Lemma required_missing {A} (validate : string -> json -> result A) :
  m !! k = None -> required m k validate = Raise (MissingField k).
Proof. intros Hk. unfold required. now rewrite Hk. Qed.

Lemma required_label {E} `{StrEnum E} :
  is_label E (m !! k) = true ->
  exists e : E, required m k validate_enum = Ok e /\ same_label (m !! k) e.
Proof.
  unfold required, is_label, same_label.
  destruct (m !! k) as [[]|]; try discriminate.
  intros Hin. apply bool_decide_eq_true in Hin.
  destruct (of_value_elem s Hin) as (e & Hfind & Hval).
  exists e. cbn. rewrite Hfind, Hval. split; reflexivity.
Qed.

Lemma required_string :
  is_str (m !! k) = true ->
  exists s, required m k (validate_str P) = Ok s /\ same_str (m !! k) s.
Proof.
  unfold required, is_str, same_str.
  destruct (m !! k) as [[]|]; try discriminate.
  intros _. eexists. split; reflexivity.
Qed.

Lemma required_boolean :
  is_bool (m !! k) = true ->
  exists b, required m k (validate_bool P) = Ok b /\ same_bool (m !! k) b.
Proof.
  unfold required, is_bool, same_bool.
  destruct (m !! k) as [[]|]; try discriminate.
  intros _. eexists. split; reflexivity.
Qed.

Lemma default_optional_string :
  is_optional_str (m !! k) = true ->
  exists x, with_default m k None (validate_optional_str P) = Ok x /\
            same_optional_str (m !! k) x.
Proof.
  unfold with_default, is_optional_str, same_optional_str.
  destruct (m !! k) as [[]|]; try discriminate;
    intros _; eexists; split; reflexivity.
Qed.

Lemma validate_strings (js : list json) :
  forallb (fun x => is_str (Some x)) js = true ->
  exists l, mapM (validate_str P k) js = Ok l /\ js = JStr <$> l.
Proof.
  induction js as [|j js IH]; cbn.
  - intros _. exists []. split; reflexivity.
  - intros Hall. apply andb_prop in Hall as [Hj Hjs].
    destruct j; try discriminate.
    destruct (IH Hjs) as (l & Hl & ->).
    exists (s :: l). cbn. unfold mbind at 1. cbn.
    rewrite Hl. split; reflexivity.
Qed.

Lemma default_string_list :
  is_str_list (m !! k) = true ->
  exists l, with_default m k [] (validate_str_list P) = Ok l /\
            same_str_list (m !! k) l.
Proof.
  unfold with_default, is_str_list, same_str_list.
  destruct (m !! k) as [[]|]; try discriminate.
  - intros Hall. apply validate_strings in Hall as (l0 & Hl & ->).
    exists l0. split; [exact Hl|reflexivity].
  - intros _. exists []. split; reflexivity.
Qed.

Lemma required_number :
  is_number (m !! k) = true -> exact_number (m !! k) ->
  exists f, required m k (validate_float P) = Ok f /\ same_number (m !! k) f.
Proof.
  unfold required, is_number, exact_number, same_number.
  destruct (m !! k) as [[]|]; try discriminate.
  - intros _ Hz. destruct (float_of_int_exact z Hz) as (f & Hf & Heq).
    exists f. cbn. rewrite Hf. split; [reflexivity|exact Heq].
  - intros _ _. eexists. split; reflexivity.
Qed.
End FieldValidation.

Lemma HazardousComponents_init_ok (P : Lax) (d : gmap string json) :
  is_hazards (Some (JObj d)) = true ->
  exists h, HazardousComponents_init P d = Ok h /\ same_hazards (Some (JObj d)) h.
Proof.
  unfold is_hazards. intros Hd.
  repeat (apply andb_prop in Hd as [Hd ?]).
  destruct (required_boolean P d "has_battery") as (b1 & E1 & S1); [assumption|].
  destruct (required_boolean P d "has_mercury") as (b2 & E2 & S2); [assumption|].
  destruct (required_boolean P d "has_lead") as (b3 & E3 & S3); [assumption|].
  destruct (required_boolean P d "has_capacitors") as (b4 & E4 & S4); [assumption|].
  destruct (required_boolean P d "has_toner") as (b5 & E5 & S5); [assumption|].
  destruct (required_boolean P d "has_data_storage") as (b6 & E6 & S6); [assumption|].
  eexists. unfold HazardousComponents_init.
  rewrite E1, E2, E3, E4, E5, E6. cbn. split; [reflexivity|].
  repeat split; assumption.
Qed.

Lemma required_hazards (P : Lax) (m : gmap string json) (k : string) :
  is_hazards (m !! k) = true ->
  exists h, required m k (validate_hazardous P) = Ok h /\ same_hazards (m !! k) h.
Proof.
  unfold required. destruct (m !! k) as [[]|] eqn:Hk; try discriminate.
  intros Hd. apply (HazardousComponents_init_ok P) in Hd as (h & Hh & Hs).
  exists h. split; [exact Hh|exact Hs].
Qed.

(** Construction from an object whose fields have the declared types, the
    confidence score being a float or an integer that binary64 holds
    exactly. *)
Lemma EWasteAnalysis_init_well_formed (P : Lax) (m : gmap string json) :
  well_formed m = true -> exact_number (m !! "confidence_score") ->
  exists r, EWasteAnalysis_init P m = Ok r /\ round_trips m r.
Proof.
  unfold well_formed. intros Hwf Hexact.
  repeat (apply andb_prop in Hwf as [Hwf ?]).
  destruct (required_label m "object_type" (E := ObjectCategory)) as (ot & E1 & S1); [assumption|].
  destruct (default_optional_string P m "brand") as (br & E2 & S2); [assumption|].
  destruct (default_optional_string P m "model") as (mo & E3 & S3); [assumption|].
  destruct (required_label m "condition" (E := ConditionStatus)) as (co & E4 & S4); [assumption|].
  destruct (required_label m "shred_safety" (E := ShredSafety)) as (ss & E5 & S5); [assumption|].
  destruct (default_string_list P m "safety_notes") as (sn & E6 & S6); [assumption|].
  destruct (required_label m "primary_processing" (E := ProcessingMethod)) as (pp & E7 & S7); [assumption|].
  destruct (default_string_list P m "preprocessing_steps") as (ps & E8 & S8); [assumption|].
  destruct (required_string P m "processing_notes") as (pn & E9 & S9); [assumption|].
  destruct (required_hazards P m "hazardous_components") as (hc & E10 & S10); [assumption|].
  destruct (required_string P m "disposal_category") as (dc & E11 & S11); [assumption|].
  destruct (required_string P m "observations") as (ob & E12 & S12); [assumption|].
  destruct (required_number P m "confidence_score") as (cs & E13 & S13); [assumption..|].
  eexists. unfold EWasteAnalysis_init.
  rewrite E1, E2, E3, E4, E5, E6, E7, E8, E9, E10, E11, E12, E13. cbn.
  split; [reflexivity|]. split; [constructor; assumption|exact S13].
Qed.

(** C2, as amended: for every JSON object that supplies all required
    fields with values of the declared types, whose confidence score is a
    float or an integer of magnitude at most 2^53, constructing an
    EWasteAnalysis succeeds and every field of the record equals the
    corresponding input value; optional fields that are left out hold their
    defaults. *)
Theorem construction_round_trips (P : Lax) (m : gmap string json) :
  well_formed m = true -> exact_number (m !! "confidence_score") ->
  exists r, EWasteAnalysis_of_json P (JObj m) = Ok r /\ round_trips m r.
Proof.
  intros Hwf Hexact. cbn [EWasteAnalysis_of_json].
  apply EWasteAnalysis_init_well_formed; assumption.
Qed.

Lemma construction_round_trips_witness :
  well_formed (sample_response (JFloat float_087)) = true /\
  exact_number (sample_response (JFloat float_087) !! "confidence_score") /\
  exists r,
    EWasteAnalysis_of_json strict (JObj (sample_response (JFloat float_087))) = Ok r /\
    round_trips (sample_response (JFloat float_087)) r.
Proof.
  split; [vm_compute; reflexivity|].
  split; [vm_compute; exact I|].
  apply construction_round_trips; [vm_compute; reflexivity|vm_compute; exact I].
Defined.

(** C2, as stated, fails: the integer 2^53 + 1 is a number, construction
    succeeds, and the stored score is the float 2^53, a different number. *)
Lemma large_integer_does_not_round_trip :
  well_formed (sample_response (JInt 9007199254740993)) = true /\
  (exists r,
     EWasteAnalysis_of_json strict (JObj (sample_response (JInt 9007199254740993))) = Ok r /\
     confidence_score r = S754_finite false 4503599627370496 1) /\
  ~ (exists r,
       EWasteAnalysis_of_json strict (JObj (sample_response (JInt 9007199254740993))) = Ok r /\
       round_trips (sample_response (JInt 9007199254740993)) r).
Proof.
  split; [vm_compute; reflexivity|]. split.
  - eexists. split; vm_compute; reflexivity.
  - intros (r & Hr & _ & Hnum).
    vm_compute in Hr. injection Hr as <-.
    vm_compute in Hnum. discriminate Hnum.
Qed.

(** A step of the construction either fails, and so does the whole, or
    yields a value with which the construction goes on. *)
Ltac next_field :=
  match goal with
  | |- exists e, Raise _ = Raise e => eexists; reflexivity
  | |- exists e, mbind _ (Raise _) = Raise e => cbn [mbind result_bind]
  | |- exists e, mbind _ ?c = Raise e => destruct c; cbn [mbind result_bind]
  end.

(** C3: for every JSON object from which one of the required fields of
    EWasteAnalysis is missing, construction raises an error and produces
    no record, whatever the other fields hold. *)
Theorem missing_required_field_fails (P : Lax) (m : gmap string json) (k : string) :
  k ∈ EWasteAnalysis_required -> m !! k = None ->
  exists e, EWasteAnalysis_of_json P (JObj m) = Raise e.
Proof.
  intros Hk Hm. cbn [EWasteAnalysis_of_json]. unfold EWasteAnalysis_init.
  unfold EWasteAnalysis_required in Hk.
  repeat (apply elem_of_cons in Hk as [-> | Hk]);
    [..|apply elem_of_nil in Hk; contradiction];
    rewrite (required_missing m _ _ Hm);
    repeat next_field.
Qed.

Lemma missing_required_field_fails_witness :
  "confidence_score" ∈ EWasteAnalysis_required /\
  delete "confidence_score" (sample_response (JFloat float_087)) !! "confidence_score" = None /\
  exists e,
    EWasteAnalysis_of_json strict
      (JObj (delete "confidence_score" (sample_response (JFloat float_087)))) = Raise e.
Proof.
  assert ("confidence_score" ∈ EWasteAnalysis_required) as Hin
    by (unfold EWasteAnalysis_required; repeat constructor).
  split; [exact Hin|].
  split; [vm_compute; reflexivity|].
  apply (missing_required_field_fails strict _ "confidence_score");
    [exact Hin|vm_compute; reflexivity].
Defined.

(** The nested model has no optional field either. *)
Lemma missing_hazard_flag_fails (P : Lax) (d : gmap string json) (k : string) :
  k ∈ ["has_battery"; "has_mercury"; "has_lead"; "has_capacitors";
       "has_toner"; "has_data_storage"] ->
  d !! k = None ->
  exists e, HazardousComponents_init P d = Raise e.
Proof.
  intros Hk Hd. unfold HazardousComponents_init.
  repeat (apply elem_of_cons in Hk as [-> | Hk]);
    [..|apply elem_of_nil in Hk; contradiction];
    rewrite (required_missing d _ _ Hd);
    repeat next_field.
Qed.

(** C8, as amended: the bound from 0 to 1 on the confidence score is not
    enforced: for every JSON object that is well-formed and whose
    confidence score is a number outside that interval, being a float or
    an integer of magnitude at most 2^53, construction succeeds and the
    record stores the out-of-range value unchanged. *)
Theorem confidence_bound_not_enforced (P : Lax) (m : gmap string json) :
  well_formed m = true ->
  outside_unit_interval (m !! "confidence_score") = true ->
  exact_number (m !! "confidence_score") ->
  exists r, EWasteAnalysis_of_json P (JObj m) = Ok r /\
            same_number (m !! "confidence_score") (confidence_score r).
Proof.
  intros Hwf _ Hexact. cbn [EWasteAnalysis_of_json].
  destruct (EWasteAnalysis_init_well_formed P m Hwf Hexact) as (r & Hr & _ & Hnum).
  exists r. split; assumption.
Qed.

Lemma confidence_bound_not_enforced_witness :
  well_formed (sample_response (JFloat float_2_5)) = true /\
  outside_unit_interval (sample_response (JFloat float_2_5) !! "confidence_score") = true /\
  exact_number (sample_response (JFloat float_2_5) !! "confidence_score") /\
  exists r,
    EWasteAnalysis_of_json strict (JObj (sample_response (JFloat float_2_5))) = Ok r /\
    same_number (sample_response (JFloat float_2_5) !! "confidence_score")
                (confidence_score r).
Proof.
  split; [vm_compute; reflexivity|].
  split; [vm_compute; reflexivity|].
  split; [vm_compute; exact I|].
  apply confidence_bound_not_enforced;
    [vm_compute; reflexivity|vm_compute; reflexivity|vm_compute; exact I].
Defined.

(** The two out-of-range scores the claim names are stored as they are. *)
Example out_of_range_scores_kept :
  confidence_score <$>
    (match EWasteAnalysis_of_json strict (JObj (sample_response (JFloat float_2_5))) with
     | Ok r => Some r | Raise _ => None end) = Some float_2_5 /\
  confidence_score <$>
    (match EWasteAnalysis_of_json strict (JObj (sample_response (JInt (-1)))) with
     | Ok r => Some r | Raise _ => None end) = Some (S754_finite true 4503599627370496 (-52)).
Proof. split; vm_compute; reflexivity. Qed.

(** C8, as stated, fails: the integer 10^400 is a number outside the
    interval, too large for binary64, and construction raises. *)
Lemma huge_integer_confidence_rejected :
  well_formed (sample_response (JInt (10 ^ 400))) = true /\
  outside_unit_interval (sample_response (JInt (10 ^ 400)) !! "confidence_score") = true /\
  EWasteAnalysis_of_json strict (JObj (sample_response (JInt (10 ^ 400))))
    = Raise (IntTooLarge "confidence_score") /\
  ~ (exists r,
       EWasteAnalysis_of_json strict (JObj (sample_response (JInt (10 ^ 400)))) = Ok r /\
       same_number (sample_response (JInt (10 ^ 400)) !! "confidence_score")
                   (confidence_score r)).
Proof.
  split; [vm_compute; reflexivity|].
  split; [vm_compute; reflexivity|].
  split; [vm_compute; reflexivity|].
  intros (r & Hr & _). vm_compute in Hr. discriminate Hr.
Qed.

(** ** Prompt resolution and the request *)

Lemma resolve_prompt_found (w : World) (path ctx text : string) :
  open_read w path = ReadOk text ->
  resolve_prompt w path ctx =
    ([], Returns (if nonempty ctx
                  then text ++ nl ++ nl ++ "Additional context: " ++ ctx
                  else text)).
Proof.
  intros Hread. unfold resolve_prompt, read_text. rewrite Hread.
  destruct (nonempty ctx); reflexivity.
Qed.

Lemma resolve_prompt_fallback (w : World) (path ctx : string) :
  open_read w path = FileNotFound ->
  resolve_prompt w path ctx =
    ([Print (missing_prompt_warning path)], Returns default_prompt).
Proof.
  intros Hread. unfold resolve_prompt, read_text. rewrite Hread. reflexivity.
Qed.

(** Any other failure to read the prompt file is not caught. *)
Lemma resolve_prompt_unreadable (w : World) (path ctx : string) :
  open_read w path = ReadFails ->
  resolve_prompt w path ctx = ([], Raises OtherIOError).
Proof.
  intros Hread. unfold resolve_prompt, read_text. rewrite Hread. reflexivity.
Qed.

(** The request starts by uploading the image, then submits the prompt it
    was given, once. *)
Lemma request_analysis_trace (P : Lax) (w : World) (image_file prompt : string) :
  exists t o,
    request_analysis P w image_file prompt = (Upload image_file :: t, o) /\
    (forall image, upload_file w image_file = Some image ->
                   submitted (Upload image_file :: t) = [prompt]).
Proof.
  unfold request_analysis, call_upload, call_generate, call_loads.
  destruct (upload_file w image_file) as [image|]; cbn.
  - destruct (generate_content w prompt image create_analysis_schema) as [text|]; cbn.
    + destruct (json_loads w text) as [j|]; cbn.
      * destruct (EWasteAnalysis_of_json P j); cbn;
          eexists _, _; (split; [reflexivity|intros ? [= <-]; reflexivity]).
      * eexists _, _. split; [reflexivity|intros ? [= <-]; reflexivity].
    + eexists _, _. split; [reflexivity|intros ? [= <-]; reflexivity].
  - eexists _, _. split; [reflexivity|]. intros ? [=].
Qed.

(** When the prompt file is read, the context is appended to its text. *)
Lemma analyze_ewaste_appends_context (P : Lax) (w : World)
    (image_file path ctx text : string) (image : nat) :
  open_read w path = ReadOk text -> nonempty ctx = true ->
  upload_file w image_file = Some image ->
  submitted (fst (analyze_ewaste P w image_file path ctx))
    = [text ++ nl ++ nl ++ "Additional context: " ++ ctx].
Proof.
  intros Hread Hctx Hup. unfold analyze_ewaste.
  rewrite (resolve_prompt_found w path ctx text Hread), Hctx.
  destruct (request_analysis_trace P w image_file
              (text ++ nl ++ nl ++ "Additional context: " ++ ctx))
    as (t & o & Hreq & Hsub).
  cbn [mbind io_bind]. rewrite Hreq. cbn [fst app]. eauto.
Qed.

(** When the prompt file does not exist, the default prompt is submitted
    as it is, whatever the context. *)
Lemma analyze_ewaste_fallback_prompt (P : Lax) (w : World)
    (image_file path ctx : string) (image : nat) :
  open_read w path = FileNotFound ->
  upload_file w image_file = Some image ->
  submitted (fst (analyze_ewaste P w image_file path ctx)) = [default_prompt].
Proof.
  intros Hread Hup. unfold analyze_ewaste.
  rewrite (resolve_prompt_fallback w path ctx Hread).
  destruct (request_analysis_trace P w image_file default_prompt)
    as (t & o & Hreq & Hsub).
  cbn [mbind io_bind]. rewrite Hreq. cbn [fst app].
  change (submitted (Print (missing_prompt_warning path) :: Upload image_file :: t))
    with (submitted (Upload image_file :: t)).
  eauto.
Qed.

(** C4: a call of analyze_ewaste with a context and a prompt file that does
    not exist submits the built-in default prompt without the context; the
    same call with a readable prompt file submits the text of the file with
    the context appended. *)
Theorem fallback_prompt_omits_context :
  submitted (fst (analyze_ewaste strict (sample_service sample_answer None)
                    "images/iphone.jpeg" default_prompt_file "Swollen battery"))
    = [default_prompt] /\
  submitted (fst (analyze_ewaste strict
                    (sample_service sample_answer (Some "Classify the item."))
                    "images/iphone.jpeg" default_prompt_file "Swollen battery"))
    = ["Classify the item." ++ nl ++ nl ++ "Additional context: Swollen battery"].
Proof. split; vm_compute; reflexivity. Qed.

(** C5: for every prompt file path that does not exist, prompt resolution
    returns the built-in default prompt, raises nothing, prints one warning,
    and analyze_ewaste goes on to upload the image. *)
Theorem missing_prompt_file_is_not_fatal (P : Lax) (w : World)
    (image_file path ctx : string) :
  open_read w path = FileNotFound ->
  resolve_prompt w path ctx
    = ([Print (missing_prompt_warning path)], Returns default_prompt) /\
  exists t o,
    analyze_ewaste P w image_file path ctx
      = (Print (missing_prompt_warning path) :: Upload image_file :: t, o).
Proof.
  intros Hread. split; [apply resolve_prompt_fallback, Hread|].
  unfold analyze_ewaste. rewrite (resolve_prompt_fallback w path ctx Hread).
  destruct (request_analysis_trace P w image_file default_prompt)
    as (t & o & Hreq & _).
  cbn [mbind io_bind]. rewrite Hreq. eexists _, _. reflexivity.
Qed.

Lemma missing_prompt_file_is_not_fatal_witness :
  open_read (sample_service sample_answer None) "prompts/none.md" = FileNotFound /\
  resolve_prompt (sample_service sample_answer None) "prompts/none.md" "Swollen battery"
    = ([Print (missing_prompt_warning "prompts/none.md")], Returns default_prompt) /\
  exists t o,
    analyze_ewaste strict (sample_service sample_answer None)
      "images/iphone.jpeg" "prompts/none.md" "Swollen battery"
      = (Print (missing_prompt_warning "prompts/none.md")
           :: Upload "images/iphone.jpeg" :: t, o).
Proof.
  split; [reflexivity|].
  apply (missing_prompt_file_is_not_fatal strict). reflexivity.
Defined.

(** ** Report renderer *)

(** The clock is read exactly once. *)
Lemma generate_processing_report_reads_once (mode : enum_format)
    (a : EWasteAnalysis) (c : Clock) :
  generate_processing_report mode a c
    = (render mode (readings c (reads c)) a,
       {| readings := readings c; reads := S (reads c) |}).
Proof. reflexivity. Qed.

(** The report is the banner, the five identification lines and the rest. *)
Lemma render_identification (mode : enum_format) (now : datetime) (a : EWasteAnalysis) :
  exists post,
    render mode now a = banner now ++ unlines (identification_lines mode a) ++ post.
Proof. unfold render. eexists. reflexivity. Qed.

(** The six hazard lines follow the heading of their section. *)
Lemma render_hazards (mode : enum_format) (now : datetime) (a : EWasteAnalysis) :
  exists pre post,
    render mode now a
      = pre ++ nl ++ unlines [hazard_heading; rule] ++
        unlines (hazard_lines (hazardous_components a)) ++ post.
Proof.
  unfold render.
  exists (banner now ++ unlines (identification_lines mode a) ++
          unlines (safety_lines mode a) ++ safety_concerns a).
  eexists. rewrite !append_assoc. reflexivity.
Qed.

Lemma format_percent1_087 : format_percent1 float_087 = "87.0%".
Proof. vm_compute. reflexivity. Qed.

(** Other scores: a tie goes to the even digit, the sign of a negative
    score is kept, and the special values are spelled out. *)
Example format_percent1_samples :
  format_percent1 (SFdiv prec emax (binary_normalize prec emax 1 0 false)
                                   (binary_normalize prec emax 8 0 false))
    = "12.5%" /\
  format_percent1 (SFdiv prec emax (binary_normalize prec emax 125 0 false)
                                   (binary_normalize prec emax 100000 0 false))
    = "0.1%" /\
  format_percent1 (SFdiv prec emax (binary_normalize prec emax (-1) 0 false)
                                   (binary_normalize prec emax 10000 0 false))
    = "-0.0%" /\
  format_percent1 float_2_5 = "250.0%" /\
  format_percent1 S754_nan = "nan%" /\
  format_percent1 (S754_infinity true) = "-inf%".
Proof. repeat split; vm_compute; reflexivity. Qed.

(** The float written 0.87 is this binary64 value. *)
Lemma float_087_bits : float_087 = S754_finite false 7836263351624663 (-53).
Proof. vm_compute. reflexivity. Qed.

Lemma or_default_absent (default : string) :
  or_default None default = default /\ or_default (Some "") default = default.
Proof. split; reflexivity. Qed.

(** C6: for every record whose hazard flags are has_battery = true and the
    other five false, the report holds, under the heading of the hazardous
    components, six hazard lines of which exactly one is marked YES and
    exactly five are marked No. *)
Theorem battery_only_hazard_lines (mode : enum_format) (a : EWasteAnalysis) (c : Clock) :
  has_battery (hazardous_components a) = true ->
  has_mercury (hazardous_components a) = false ->
  has_lead (hazardous_components a) = false ->
  has_capacitors (hazardous_components a) = false ->
  has_toner (hazardous_components a) = false ->
  has_data_storage (hazardous_components a) = false ->
  (exists pre post,
     fst (generate_processing_report mode a c)
       = pre ++ nl ++ unlines [hazard_heading; rule] ++
         unlines (hazard_lines (hazardous_components a)) ++ post) /\
  List.length (hazard_lines (hazardous_components a)) = 6%nat /\
  count_where (ends_with yes_mark) (hazard_lines (hazardous_components a)) = 1%nat /\
  count_where (ends_with no_mark) (hazard_lines (hazardous_components a)) = 5%nat.
Proof.
  intros Hb Hm Hl Hc Ht Hd. split.
  - rewrite generate_processing_report_reads_once. cbn [fst].
    apply render_hazards.
  - unfold hazard_lines. rewrite Hb, Hm, Hl, Hc, Ht, Hd.
    repeat split; vm_compute; reflexivity.
Qed.

Lemma battery_only_hazard_lines_witness :
  (exists pre post,
     fst (generate_processing_report FormatValue sample_analysis sample_clock)
       = pre ++ nl ++ unlines [hazard_heading; rule] ++
         unlines (hazard_lines (hazardous_components sample_analysis)) ++ post) /\
  List.length (hazard_lines (hazardous_components sample_analysis)) = 6%nat /\
  count_where (ends_with yes_mark)
    (hazard_lines (hazardous_components sample_analysis)) = 1%nat /\
  count_where (ends_with no_mark)
    (hazard_lines (hazardous_components sample_analysis)) = 5%nat.
Proof.
  apply (battery_only_hazard_lines FormatValue sample_analysis sample_clock);
    reflexivity.
Defined.

(** On the sample record the same counts hold over all lines of the report. *)
Example sample_report_marks :
  count_where (ends_with yes_mark)
    (lines (fst (generate_processing_report FormatValue sample_analysis sample_clock)))
    = 1%nat /\
  count_where (ends_with no_mark)
    (lines (fst (generate_processing_report FormatValue sample_analysis sample_clock)))
    = 5%nat.
Proof. split; vm_compute; reflexivity. Qed.

(** C7: for a record whose confidence score is 0.87, the fifth line of the
    identification section of the report is [Confidence: 87.0%]. *)
Theorem confidence_087_renders (mode : enum_format) (a : EWasteAnalysis) (c : Clock) :
  confidence_score a = float_087 ->
  exists post,
    fst (generate_processing_report mode a c)
      = banner (fst (datetime_now c)) ++
        unlines ["Type: " ++ format_enum mode (object_type a);
                 "Brand: " ++ or_default (brand a) "Not identified";
                 "Model: " ++ or_default (model a) "Not identified";
                 "Condition: " ++ format_enum mode (condition a);
                 "Confidence: 87.0%"] ++ post.
Proof.
  intros Hscore. rewrite generate_processing_report_reads_once. cbn [fst datetime_now].
  destruct (render_identification mode (readings c (reads c)) a) as (post & Hpost).
  exists post. rewrite Hpost. unfold identification_lines.
  rewrite Hscore, format_percent1_087. reflexivity.
Qed.

Lemma confidence_087_renders_witness :
  exists post,
    fst (generate_processing_report FormatValue sample_analysis sample_clock)
      = banner (fst (datetime_now sample_clock)) ++
        unlines ["Type: " ++ format_enum FormatValue (object_type sample_analysis);
                 "Brand: " ++ or_default (brand sample_analysis) "Not identified";
                 "Model: " ++ or_default (model sample_analysis) "Not identified";
                 "Condition: " ++ format_enum FormatValue (condition sample_analysis);
                 "Confidence: 87.0%"] ++ post.
Proof.
  apply (confidence_087_renders FormatValue sample_analysis sample_clock).
  reflexivity.
Defined.

(** C9: two calls of generate_processing_report on equal records, with
    clocks whose next reading is the same, render the same text. *)
Theorem report_deterministic (mode : enum_format) (a1 a2 : EWasteAnalysis)
    (c1 c2 : Clock) :
  a1 = a2 -> fst (datetime_now c1) = fst (datetime_now c2) ->
  fst (generate_processing_report mode a1 c1)
    = fst (generate_processing_report mode a2 c2).
Proof.
  intros -> Hnow. rewrite !generate_processing_report_reads_once.
  cbn [fst datetime_now] in *. now rewrite Hnow.
Qed.

Lemma report_deterministic_witness :
  fst (generate_processing_report FormatName sample_analysis sample_clock)
    = fst (generate_processing_report FormatName sample_analysis other_clock).
Proof.
  apply report_deterministic; reflexivity.
Defined.

(** C10: a brand, or a model, that is absent or the empty string is
    rendered as [Not identified], and a record with the empty string
    renders exactly as the record with the field absent. *)
Theorem empty_identification_renders_sentinel (mode : enum_format)
    (a : EWasteAnalysis) (c : Clock) (x : option string) :
  x = None \/ x = Some "" ->
  (exists post,
     fst (generate_processing_report mode (with_brand x a) c)
       = banner (fst (datetime_now c)) ++
         unlines ["Type: " ++ format_enum mode (object_type a);
                  "Brand: Not identified"] ++ post) /\
  (exists post,
     fst (generate_processing_report mode (with_model x a) c)
       = banner (fst (datetime_now c)) ++
         unlines ["Type: " ++ format_enum mode (object_type a);
                  "Brand: " ++ or_default (brand a) "Not identified";
                  "Model: Not identified"] ++ post) /\
  fst (generate_processing_report mode (with_brand x a) c)
    = fst (generate_processing_report mode (with_brand None a) c) /\
  fst (generate_processing_report mode (with_model x a) c)
    = fst (generate_processing_report mode (with_model None a) c).
Proof.
  intros Hx. rewrite !generate_processing_report_reads_once. cbn [fst datetime_now].
  assert (or_default x "Not identified" = "Not identified") as Hsentinel
    by (destruct Hx as [-> | ->]; reflexivity).
  repeat split.
  - unfold render, identification_lines. cbn [with_brand object_type brand].
    rewrite Hsentinel.
    match goal with
    | |- context [unlines [?t; ?b; ?m; ?co; ?cf] ++ ?tail] =>
        exists (unlines [m; co; cf] ++ tail);
        change (unlines [t; b; m; co; cf])
          with (unlines ([t; b] ++ [m; co; cf])%list)
    end.
    rewrite unlines_app, append_assoc. reflexivity.
  - unfold render, identification_lines. cbn [with_model object_type brand model].
    rewrite Hsentinel.
    match goal with
    | |- context [unlines [?t; ?b; ?m; ?co; ?cf] ++ ?tail] =>
        exists (unlines [co; cf] ++ tail);
        change (unlines [t; b; m; co; cf])
          with (unlines ([t; b; m] ++ [co; cf])%list)
    end.
    rewrite unlines_app, append_assoc. reflexivity.
  - destruct Hx as [-> | ->]; reflexivity.
  - destruct Hx as [-> | ->]; reflexivity.
Qed.

Lemma empty_identification_renders_sentinel_witness :
  (exists post,
     fst (generate_processing_report FormatValue
            (with_brand (Some "") sample_analysis) sample_clock)
       = banner (fst (datetime_now sample_clock)) ++
         unlines ["Type: " ++ format_enum FormatValue (object_type sample_analysis);
                  "Brand: Not identified"] ++ post) /\
  (exists post,
     fst (generate_processing_report FormatValue
            (with_model (Some "") sample_analysis) sample_clock)
       = banner (fst (datetime_now sample_clock)) ++
         unlines ["Type: " ++ format_enum FormatValue (object_type sample_analysis);
                  "Brand: " ++ or_default (brand sample_analysis) "Not identified";
                  "Model: Not identified"] ++ post) /\
  fst (generate_processing_report FormatValue
         (with_brand (Some "") sample_analysis) sample_clock)
    = fst (generate_processing_report FormatValue
             (with_brand None sample_analysis) sample_clock) /\
  fst (generate_processing_report FormatValue
         (with_model (Some "") sample_analysis) sample_clock)
    = fst (generate_processing_report FormatValue
             (with_model None sample_analysis) sample_clock).
Proof.
  apply (empty_identification_renders_sentinel FormatValue sample_analysis
           sample_clock (Some "")).
  right. reflexivity.
Defined.

(** * Further properties of the script *)

#[local] Set Warnings "-clear-no-such-hyp".

(** ** Enumerations and labels *)

Lemma of_value_not_elem {E} `{StrEnum E} (s : string) :
  s ∉ values E -> of_value (E := E) s = None.
Proof.
  intros Hnot. destruct (of_value (E := E) s) as [e|] eqn:Hfind; [|reflexivity].
  exfalso. apply Hnot. unfold values.
  pose proof (of_value_value s e Hfind) as <-.
  unfold of_value in Hfind. apply List.find_some in Hfind as [Hin _].
  apply list_elem_of_In in Hin. now apply list_elem_of_fmap_2.
Qed.

(** X1: calling an enumeration class on a string yields a member exactly
    when the string is the value of that member; so every member is found
    again from its own value. *)
Theorem enum_lookup_by_value :
  (forall (s : string) (e : ObjectCategory), of_value s = Some e <-> value e = s) /\
  (forall (s : string) (e : ConditionStatus), of_value s = Some e <-> value e = s) /\
  (forall (s : string) (e : ShredSafety), of_value s = Some e <-> value e = s) /\
  (forall (s : string) (e : ProcessingMethod), of_value s = Some e <-> value e = s).
Proof.
  repeat split; try apply of_value_value; intros <-; destruct e; reflexivity.
Qed.

Lemma required_unknown_label {E} `{StrEnum E} (m : gmap string json) (k s : string) :
  m !! k = Some (JStr s) -> s ∉ values E ->
  required m k (validate_enum (E := E)) = Raise (NotAMember k).
Proof.
  intros Hk Hnot. unfold required. rewrite Hk. cbn.
  now rewrite (of_value_not_elem s Hnot).
Qed.

(** X2: a string that is not a value of the enumeration is rejected in
    each of the four enumeration fields, whatever the other fields hold. *)
Theorem unknown_label_rejected (P : Lax) (m : gmap string json)
    (k s : string) (accepted : list string) :
  (k, accepted) ∈ enum_fields -> m !! k = Some (JStr s) -> s ∉ accepted ->
  exists e, EWasteAnalysis_of_json P (JObj m) = Raise e.
Proof.
  intros Hk Hm Hnot. cbn [EWasteAnalysis_of_json]. unfold EWasteAnalysis_init.
  unfold enum_fields in Hk.
  repeat (apply elem_of_cons in Hk as [[= -> ->] | Hk]);
    [..|apply elem_of_nil in Hk; contradiction];
    rewrite (required_unknown_label m _ s Hm Hnot);
    repeat next_field.
Qed.

Lemma unknown_label_rejected_witness :
  exists e,
    EWasteAnalysis_of_json strict
      (JObj (<["condition" := JStr "Rusty"]> (sample_response (JFloat float_087))))
    = Raise e.
Proof.
  apply (unknown_label_rejected strict _ "condition" "Rusty" (values ConditionStatus)).
  - unfold enum_fields. repeat constructor.
  - vm_compute. reflexivity.
  - apply (bool_decide_eq_false_1 _). vm_compute. reflexivity.
Defined.

(** ** Keys of the input object *)

Lemma EWasteAnalysis_init_missing (P : Lax) (m : gmap string json) (k : string) :
  k ∈ EWasteAnalysis_required -> m !! k = None ->
  exists e, EWasteAnalysis_init P m = Raise e.
Proof.
  intros Hk Hm. unfold EWasteAnalysis_init.
  unfold EWasteAnalysis_required in Hk.
  repeat (apply elem_of_cons in Hk as [-> | Hk]);
    [..|apply elem_of_nil in Hk; contradiction];
    rewrite (required_missing m _ _ Hm);
    repeat next_field.
Qed.

(** X3: a key that is not a field of the model is ignored: adding it to the
    input object, with any value, changes nothing in the outcome of the
    construction. *)
Theorem extra_key_ignored (P : Lax) (m : gmap string json) (k : string) (v : json) :
  k ∉ EWasteAnalysis_fields ->
  EWasteAnalysis_of_json P (JObj (<[k := v]> m)) = EWasteAnalysis_of_json P (JObj m).
Proof.
  intros Hk. cbn [EWasteAnalysis_of_json].
  assert (forall f, f ∈ EWasteAnalysis_fields -> k <> f) as Hne
    by (intros f Hf ->; exact (Hk Hf)).
  unfold EWasteAnalysis_init, required, with_default.
  rewrite !lookup_insert_ne
    by (apply Hne; unfold EWasteAnalysis_fields; repeat constructor).
  reflexivity.
Qed.

Lemma extra_key_ignored_witness :
  EWasteAnalysis_of_json strict
    (JObj (<["weight_kg" := JInt 3]> (sample_response (JFloat float_087))))
  = EWasteAnalysis_of_json strict (JObj (sample_response (JFloat float_087))).
Proof.
  apply extra_key_ignored.
  apply (bool_decide_eq_false_1 _). vm_compute. reflexivity.
Defined.

(** X4: for the brand and for the model, an explicit null is the same as
    leaving the key out. *)
Theorem null_brand_or_model_is_absent (P : Lax) (m : gmap string json) :
  EWasteAnalysis_init P (<["brand" := JNull]> m)
    = EWasteAnalysis_init P (delete "brand" m) /\
  EWasteAnalysis_init P (<["model" := JNull]> m)
    = EWasteAnalysis_init P (delete "model" m).
Proof.
  split; unfold EWasteAnalysis_init, required, with_default;
    rewrite lookup_insert_eq, lookup_delete_eq;
    rewrite !lookup_insert_ne, !lookup_delete_ne by done;
    reflexivity.
Qed.

(** X5: a hazardous_components object that lacks one of the six flags makes
    the construction of the whole record fail. *)
Theorem missing_hazard_flag_fails_record (P : Lax) (m d : gmap string json) (k : string) :
  m !! "hazardous_components" = Some (JObj d) ->
  k ∈ HazardousComponents_fields -> d !! k = None ->
  exists e, EWasteAnalysis_of_json P (JObj m) = Raise e.
Proof.
  intros Hm Hk Hd. cbn [EWasteAnalysis_of_json].
  destruct (missing_hazard_flag_fails P d k Hk Hd) as (e & He).
  assert (required m "hazardous_components" (validate_hazardous P) = Raise e) as Hreq
    by (unfold required; rewrite Hm; exact He).
  unfold EWasteAnalysis_init. rewrite Hreq. repeat next_field.
Qed.

Lemma missing_hazard_flag_fails_record_witness :
  exists e,
    EWasteAnalysis_of_json strict
      (JObj (<["hazardous_components" := JObj (delete "has_toner" sample_hazards)]>
               (sample_response (JFloat float_087))))
    = Raise e.
Proof.
  apply (missing_hazard_flag_fails_record strict _
           (delete "has_toner" sample_hazards) "has_toner").
  - vm_compute. reflexivity.
  - unfold HazardousComponents_fields. repeat constructor.
  - vm_compute. reflexivity.
Defined.

(** ** Writing a record out and reading it back *)

Lemma of_value_self :
  (forall e : ObjectCategory, of_value (value e) = Some e) /\
  (forall e : ConditionStatus, of_value (value e) = Some e) /\
  (forall e : ShredSafety, of_value (value e) = Some e) /\
  (forall e : ProcessingMethod, of_value (value e) = Some e).
Proof. repeat split; intros []; reflexivity. Qed.

Lemma validate_str_list_strings (P : Lax) (k : string) (l : list string) :
  validate_str_list P k (jstrs l) = Ok l.
Proof.
  unfold validate_str_list, jstrs.
  induction l as [|s l IH]; [reflexivity|].
  cbn. unfold mbind at 1. cbn. cbn in IH. rewrite IH. reflexivity.
Qed.

Lemma validate_optional_str_dump (P : Lax) (k : string) (x : option string) :
  validate_optional_str P k (json_of_optional_str x) = Ok x.
Proof. destruct x; reflexivity. Qed.

Lemma HazardousComponents_dict_init (P : Lax) (h : HazardousComponents) :
  HazardousComponents_init P (HazardousComponents_dict h) = Ok h.
Proof. destruct h. reflexivity. Qed.

Lemma EWasteAnalysis_dict_init (P : Lax) (a : EWasteAnalysis) :
  EWasteAnalysis_init P (EWasteAnalysis_dict a) = Ok a.
Proof.
  destruct of_value_self as (Hot & Hco & Hss & Hpp).
  unfold EWasteAnalysis_init, required, with_default.
  change (EWasteAnalysis_dict a !! "object_type")
    with (Some (JStr (value (object_type a)))).
  change (EWasteAnalysis_dict a !! "brand")
    with (Some (json_of_optional_str (brand a))).
  change (EWasteAnalysis_dict a !! "model")
    with (Some (json_of_optional_str (model a))).
  change (EWasteAnalysis_dict a !! "condition")
    with (Some (JStr (value (condition a)))).
  change (EWasteAnalysis_dict a !! "shred_safety")
    with (Some (JStr (value (shred_safety a)))).
  change (EWasteAnalysis_dict a !! "safety_notes")
    with (Some (jstrs (safety_notes a))).
  change (EWasteAnalysis_dict a !! "primary_processing")
    with (Some (JStr (value (primary_processing a)))).
  change (EWasteAnalysis_dict a !! "preprocessing_steps")
    with (Some (jstrs (preprocessing_steps a))).
  change (EWasteAnalysis_dict a !! "processing_notes")
    with (Some (JStr (processing_notes a))).
  change (EWasteAnalysis_dict a !! "hazardous_components")
    with (Some (JObj (HazardousComponents_dict (hazardous_components a)))).
  change (EWasteAnalysis_dict a !! "disposal_category")
    with (Some (JStr (disposal_category a))).
  change (EWasteAnalysis_dict a !! "observations")
    with (Some (JStr (observations a))).
  change (EWasteAnalysis_dict a !! "confidence_score")
    with (Some (JFloat (confidence_score a))).
  cbn [validate_enum validate_str validate_float validate_hazardous].
  rewrite Hot, Hco, Hss, Hpp, !validate_optional_str_dump,
    !validate_str_list_strings, HazardousComponents_dict_init.
  destruct a. reflexivity.
Qed.

(** X6: constructing a record from the dictionary of a record gives that
    record back, for every record. *)
Theorem dict_round_trip (P : Lax) (a : EWasteAnalysis) :
  EWasteAnalysis_of_json P (JObj (EWasteAnalysis_dict a)) = Ok a.
Proof. cbn [EWasteAnalysis_of_json]. apply EWasteAnalysis_dict_init. Qed.

(** The dictionary of a record has exactly the fields of the model as keys. *)
Lemma dict_keys (a : EWasteAnalysis) (k : string) :
  is_Some (EWasteAnalysis_dict a !! k) <-> k ∈ EWasteAnalysis_fields.
Proof.
  unfold EWasteAnalysis_dict, EWasteAnalysis_fields. split.
  - intros [v Hv]. apply elem_of_list_to_map_2 in Hv.
    apply (list_elem_of_fmap_2 fst) in Hv. exact Hv.
  - intros Hk.
    repeat (apply elem_of_cons in Hk as [-> | Hk]);
      [..|apply elem_of_nil in Hk; contradiction]; eexists; reflexivity.
Qed.

(** ** The schema and the model *)

(** The properties the schema declares are the fields of the model. *)
Lemma schema_declares_fields (k : string) :
  schema_declares k = true <-> k ∈ EWasteAnalysis_fields.
Proof.
  unfold schema_declares. rewrite bool_decide_eq_true. split.
  - intros [v Hv]. apply elem_of_map_to_list in Hv.
    apply (list_elem_of_fmap_2 fst) in Hv. cbn [fst] in Hv.
    remember ((map_to_list schema_properties).*1) as names eqn:Hnames.
    vm_compute in Hnames. subst names. unfold EWasteAnalysis_fields.
    repeat (apply elem_of_cons in Hv as [-> | Hv]);
      [..|apply elem_of_nil in Hv; contradiction]; repeat constructor.
  - unfold EWasteAnalysis_fields. intros Hk.
    repeat (apply elem_of_cons in Hk as [-> | Hk]);
      [..|apply elem_of_nil in Hk; contradiction];
      vm_compute; eexists; reflexivity.
Qed.

Lemma well_formed_delete_optional (m : gmap string json) (k : string) :
  k ∈ ["brand"; "model"; "safety_notes"; "preprocessing_steps"] ->
  well_formed m = true -> well_formed (delete k m) = true.
Proof.
  intros Hk Hwf. unfold well_formed in *.
  repeat (apply andb_prop in Hwf as [Hwf ?]).
  repeat (apply elem_of_cons in Hk as [-> | Hk]);
    [..|apply elem_of_nil in Hk; contradiction];
    rewrite lookup_delete_eq, !lookup_delete_ne by done;
    repeat (apply andb_true_intro; split); first [assumption|reflexivity].
Qed.

(** X7: the required list of the schema says which fields the construction
    needs: taking a declared property out of an object that constructs
    makes the construction fail exactly when the schema lists that property
    as required. *)
Theorem schema_required_matches_construction (P : Lax) (m : gmap string json)
    (k : string) :
  well_formed m = true -> exact_number (m !! "confidence_score") ->
  schema_declares k = true ->
  is_ok (EWasteAnalysis_init P (delete k m))
    = negb (bool_decide (k ∈ schema_required_names)).
Proof.
  intros Hwf Hexact Hk. apply schema_declares_fields in Hk.
  assert (k ∈ EWasteAnalysis_required \/
          k ∈ ["brand"; "model"; "safety_notes"; "preprocessing_steps"]) as [Hreq|Hopt].
  { unfold EWasteAnalysis_fields, EWasteAnalysis_required in *.
    repeat (apply elem_of_cons in Hk as [-> | Hk]);
      [..|apply elem_of_nil in Hk; contradiction];
      first [left; repeat constructor; fail | right; repeat constructor]. }
  - destruct (EWasteAnalysis_init_missing P (delete k m) k Hreq) as (e & ->);
      [apply lookup_delete_eq|].
    unfold EWasteAnalysis_required in Hreq.
    repeat (apply elem_of_cons in Hreq as [-> | Hreq]);
      [..|apply elem_of_nil in Hreq; contradiction];
      vm_compute; reflexivity.
  - pose proof (well_formed_delete_optional m k Hopt Hwf) as Hwf'.
    assert (exact_number (delete k m !! "confidence_score")) as Hexact'.
    { rewrite lookup_delete_ne; [exact Hexact|].
      intros ->.
      repeat (apply elem_of_cons in Hopt as [[=] | Hopt]).
      apply elem_of_nil in Hopt. contradiction. }
    destruct (EWasteAnalysis_init_well_formed P _ Hwf' Hexact') as (r & -> & _).
    repeat (apply elem_of_cons in Hopt as [-> | Hopt]);
      [..|apply elem_of_nil in Hopt; contradiction];
      vm_compute; reflexivity.
Qed.

Lemma schema_required_matches_construction_witness :
  is_ok (EWasteAnalysis_init strict
           (delete "observations" (sample_response (JFloat float_087))))
    = negb (bool_decide ("observations" ∈ schema_required_names)).
Proof.
  apply schema_required_matches_construction;
    [vm_compute; reflexivity|vm_compute; exact I|vm_compute; reflexivity].
Defined.

(** ** The analysis request, case by case *)

Lemma request_analysis_cases (P : Lax) (w : World) (image_file prompt : string) :
  request_analysis P w image_file prompt =
    match upload_file w image_file with
    | None => ([Upload image_file; PrintError ServiceError], Raises ServiceError)
    | Some image =>
        let sent := Generate prompt image create_analysis_schema in
        match generate_content w prompt image create_analysis_schema with
        | None => ([Upload image_file; sent; PrintError ServiceError],
                   Raises ServiceError)
        | Some text =>
            match json_loads w text with
            | None => ([Upload image_file; sent; PrintError JSONDecodeError],
                       Raises JSONDecodeError)
            | Some j =>
                match EWasteAnalysis_of_json P j with
                | Ok a => ([Upload image_file; sent], Returns a)
                | Raise e =>
                    ([Upload image_file; sent; PrintError (ConstructionError e)],
                     Raises (ConstructionError e))
                end
            end
        end
    end.
Proof.
  unfold request_analysis, call_upload, call_generate, call_loads.
  destruct (upload_file w image_file) as [image|]; [|reflexivity]. cbn.
  destruct (generate_content w prompt image create_analysis_schema) as [text|];
    [|reflexivity]. cbn.
  destruct (json_loads w text) as [j|]; [|reflexivity]. cbn.
  destruct (EWasteAnalysis_of_json P j); reflexivity.
Qed.

(** The prompt that is submitted, if the request gets that far. *)
Lemma resolve_prompt_cases (w : World) (path ctx : string) :
  resolve_prompt w path ctx =
    match open_read w path with
    | ReadOk text =>
        ([], Returns (if nonempty ctx
                      then text ++ nl ++ nl ++ "Additional context: " ++ ctx
                      else text))
    | FileNotFound =>
        ([Print (missing_prompt_warning path)], Returns default_prompt)
    | ReadFails => ([], Raises OtherIOError)
    end.
Proof.
  destruct (open_read w path) eqn:Hread.
  - now apply resolve_prompt_found.
  - now apply resolve_prompt_fallback.
  - now apply resolve_prompt_unreadable.
Qed.

Lemma analyze_ewaste_cases (P : Lax) (w : World) (image_file path ctx : string) :
  analyze_ewaste P w image_file path ctx =
    match resolve_prompt w path ctx with
    | (t, Returns prompt) =>
        let '(t', o) := request_analysis P w image_file prompt in
        ((t ++ t')%list, o)
    | (t, Raises e) => (t, Raises e)
    end.
Proof.
  unfold analyze_ewaste. destruct (resolve_prompt w path ctx) as [t [prompt|e]];
    reflexivity.
Qed.

Ltac analysis_cases P w image_file path ctx :=
  rewrite analyze_ewaste_cases, resolve_prompt_cases;
  destruct (open_read w path) as [file_text| |];
  try match goal with
      | |- context [request_analysis P w image_file ?prompt] =>
          rewrite (request_analysis_cases P w image_file prompt);
          destruct (upload_file w image_file) as [handle|] eqn:Hupload;
          [cbn zeta;
           destruct (generate_content w prompt handle create_analysis_schema)
             as [reply|] eqn:Hreply;
           [destruct (json_loads w reply) as [parsed|] eqn:Hloads;
            [destruct (EWasteAnalysis_of_json P parsed) as [built|failure]
               eqn:Hbuilt|]|]|]
      end.

(** X8: the prompt file decides how prompt resolution ends: a warning is
    printed exactly when the file does not exist, and an exception leaves
    prompt resolution exactly when the file exists but cannot be read. *)
Theorem prompt_resolution_outcomes (w : World) (path ctx : string) :
  (fst (resolve_prompt w path ctx) <> [] <-> open_read w path = FileNotFound) /\
  ((exists e, snd (resolve_prompt w path ctx) = Raises e)
     <-> open_read w path = ReadFails).
Proof.
  rewrite resolve_prompt_cases.
  destruct (open_read w path); cbn [fst snd]; split; split;
    try discriminate; try congruence; try reflexivity.
  - intros (e & [=]).
  - intros (e & [=]).
  - intros _. eexists. reflexivity.
Qed.

(** X9: whatever is raised in analyze_ewaste is raised to the caller.  An
    unreadable prompt file raises before anything is printed or sent;
    every other failure happens after the upload was attempted, is printed
    once, as the last event, and is the exception raised. *)
Theorem analysis_failure_is_reported (P : Lax) (w : World)
    (image_file path ctx : string) (t : list event) (e : exception) :
  analyze_ewaste P w image_file path ctx = (t, Raises e) ->
  (open_read w path = ReadFails /\ t = [] /\ e = OtherIOError) \/
  (exists t', t = (t' ++ [PrintError e])%list /\ Upload image_file ∈ t' /\
              forall e', PrintError e' ∉ t').
Proof.
  analysis_cases P w image_file path ctx; cbn; intros Heq;
    try discriminate Heq; injection Heq as <- <-;
    first [ left; repeat split; reflexivity
          | right; eexists [_]; (split; [reflexivity|]); split;
            [set_solver|intros e' He'; set_solver]
          | right; eexists [_; _]; (split; [reflexivity|]); split;
            [set_solver|intros e' He'; set_solver]
          | right; eexists [_; _; _]; (split; [reflexivity|]); split;
            [set_solver|intros e' He'; set_solver] ].
Qed.

Lemma analysis_failure_is_reported_witness :
  (open_read (sample_service JNull None) default_prompt_file = ReadFails /\
   fst (analyze_ewaste strict (sample_service JNull None) image_path
          default_prompt_file "") = [] /\
   ConstructionError NotAMapping = OtherIOError) \/
  (exists t',
     fst (analyze_ewaste strict (sample_service JNull None) image_path
            default_prompt_file "")
       = (t' ++ [PrintError (ConstructionError NotAMapping)])%list /\
     Upload image_path ∈ t' /\ forall e', PrintError e' ∉ t').
Proof.
  apply (analysis_failure_is_reported strict (sample_service JNull None)
           image_path default_prompt_file "").
  vm_compute. reflexivity.
Defined.

(** X10: a record returned by analyze_ewaste is the record constructed
    from the parsed answer of the remote model to the one prompt that was
    submitted together with the uploaded image and the schema; nothing is
    printed as an error on that path. *)
Theorem analysis_result_is_validated_answer (P : Lax) (w : World)
    (image_file path ctx : string) (t : list event) (a : EWasteAnalysis) :
  analyze_ewaste P w image_file path ctx = (t, Returns a) ->
  exists prompt image answer j,
    submitted t = [prompt] /\
    upload_file w image_file = Some image /\
    generate_content w prompt image create_analysis_schema = Some answer /\
    json_loads w answer = Some j /\
    EWasteAnalysis_of_json P j = Ok a /\
    forall e, PrintError e ∉ t.
Proof.
  analysis_cases P w image_file path ctx; cbn; intros Heq;
    try discriminate Heq; injection Heq as <- <-;
    eexists _, handle, reply, parsed;
    (split; [reflexivity|]);
    repeat (split; [first [reflexivity|eassumption]|]); intros e He; set_solver.
Qed.

Lemma analysis_result_is_validated_answer_witness :
  exists prompt image answer j,
    submitted (fst (analyze_ewaste strict (sample_service sample_answer None)
                      image_path default_prompt_file "")) = [prompt] /\
    upload_file (sample_service sample_answer None) image_path = Some image /\
    generate_content (sample_service sample_answer None) prompt image
      create_analysis_schema = Some answer /\
    json_loads (sample_service sample_answer None) answer = Some j /\
    EWasteAnalysis_of_json strict j = Ok sample_record /\
    forall e, PrintError e ∉
      fst (analyze_ewaste strict (sample_service sample_answer None)
             image_path default_prompt_file "").
Proof.
  apply (analysis_result_is_validated_answer strict
           (sample_service sample_answer None) image_path default_prompt_file "").
  vm_compute. reflexivity.
Defined.

(** X11: analyze_ewaste sends at most one request to the remote model,
    never one without the schema, and never one for an image whose upload
    failed. *)
Theorem analysis_sends_one_request (P : Lax) (w : World)
    (image_file path ctx : string) :
  (List.length (submitted (fst (analyze_ewaste P w image_file path ctx))) <= 1)%nat /\
  forall prompt image schema,
    Generate prompt image schema ∈ fst (analyze_ewaste P w image_file path ctx) ->
    schema = create_analysis_schema /\ upload_file w image_file = Some image.
Proof.
  analysis_cases P w image_file path ctx; cbn; (split; [lia|]);
    intros prompt' image' schema' Hin;
    repeat (apply elem_of_cons in Hin as [[=] | Hin]);
    try (apply elem_of_nil in Hin; contradiction);
    subst; split; first [reflexivity|assumption].
Qed.

(** X12: with an empty context the prompt submitted is the text of the
    prompt file, unchanged. *)
Theorem empty_context_keeps_prompt (P : Lax) (w : World)
    (image_file path text : string) (image : nat) :
  open_read w path = ReadOk text -> upload_file w image_file = Some image ->
  submitted (fst (analyze_ewaste P w image_file path "")) = [text].
Proof.
  intros Hread Hup. rewrite analyze_ewaste_cases, resolve_prompt_cases, Hread.
  cbn [nonempty]. rewrite request_analysis_cases, Hup. cbn zeta.
  destruct (generate_content w text image create_analysis_schema) as [answer|];
    [|reflexivity].
  destruct (json_loads w answer) as [j|]; [|reflexivity].
  destruct (EWasteAnalysis_of_json P j); reflexivity.
Qed.

Lemma empty_context_keeps_prompt_witness :
  submitted (fst (analyze_ewaste strict
                    (sample_service sample_answer (Some "Classify the item."))
                    image_path default_prompt_file "")) = ["Classify the item."].
Proof.
  apply (empty_context_keeps_prompt strict _ image_path default_prompt_file
           "Classify the item." 0%nat); reflexivity.
Defined.

(** ** More on the report *)

(** X13: for every combination of the six hazard flags, the number of
    hazard lines marked YES is the number of flags that are set, and the
    number marked No is the number of flags that are not; the six lines
    are always there. *)
Theorem hazard_marks_count_flags (h : HazardousComponents) :
  count_where (ends_with yes_mark) (hazard_lines h)
    = count_where (fun b => b) (hazard_flags h) /\
  count_where (ends_with no_mark) (hazard_lines h)
    = count_where negb (hazard_flags h) /\
  List.length (hazard_lines h) = 6%nat.
Proof.
  destruct h as [[] [] [] [] [] []]; repeat split; vm_compute; reflexivity.
Qed.




(** X15: a brand, or a model, that is a non-empty string is rendered as it
    is on its line of the identification section. *)
Theorem identified_brand_and_model_rendered (mode : enum_format)
    (a : EWasteAnalysis) (c : Clock) (s : string) :
  s <> "" ->
  (exists post,
     fst (generate_processing_report mode (with_brand (Some s) a) c)
       = banner (fst (datetime_now c)) ++
         unlines ["Type: " ++ format_enum mode (object_type a);
                  "Brand: " ++ s] ++ post) /\
  (exists post,
     fst (generate_processing_report mode (with_model (Some s) a) c)
       = banner (fst (datetime_now c)) ++
         unlines ["Type: " ++ format_enum mode (object_type a);
                  "Brand: " ++ or_default (brand a) "Not identified";
                  "Model: " ++ s] ++ post).
Proof.
  intros Hs. rewrite !generate_processing_report_reads_once. cbn [fst datetime_now].
  assert (or_default (Some s) "Not identified" = s) as Hkept
    by (destruct s; [contradiction|reflexivity]).
  split.
  - unfold render, identification_lines. cbn [with_brand object_type brand].
    rewrite Hkept.
    match goal with
    | |- context [unlines [?t; ?b; ?m; ?co; ?cf] ++ ?tail] =>
        exists (unlines [m; co; cf] ++ tail);
        change (unlines [t; b; m; co; cf])
          with (unlines ([t; b] ++ [m; co; cf])%list)
    end.
    rewrite unlines_app, append_assoc. reflexivity.
  - unfold render, identification_lines. cbn [with_model object_type brand model].
    rewrite Hkept.
    match goal with
    | |- context [unlines [?t; ?b; ?m; ?co; ?cf] ++ ?tail] =>
        exists (unlines [co; cf] ++ tail);
        change (unlines [t; b; m; co; cf])
          with (unlines ([t; b; m] ++ [co; cf])%list)
    end.
    rewrite unlines_app, append_assoc. reflexivity.
Qed.

Lemma identified_brand_and_model_rendered_witness :
  (exists post,
     fst (generate_processing_report FormatValue
            (with_brand (Some "Nokia") sample_analysis) sample_clock)
       = banner (fst (datetime_now sample_clock)) ++
         unlines ["Type: " ++ format_enum FormatValue (object_type sample_analysis);
                  "Brand: " ++ "Nokia"] ++ post) /\
  (exists post,
     fst (generate_processing_report FormatValue
            (with_model (Some "Nokia") sample_analysis) sample_clock)
       = banner (fst (datetime_now sample_clock)) ++
         unlines ["Type: " ++ format_enum FormatValue (object_type sample_analysis);
                  "Brand: " ++ or_default (brand sample_analysis) "Not identified";
                  "Model: " ++ "Nokia"] ++ post).
Proof.
  apply (identified_brand_and_model_rendered FormatValue sample_analysis
           sample_clock "Nokia").
  discriminate.
Defined.

(** ** The script body *)

Lemma files_written_app (xs ys : list effect) :
  files_written (xs ++ ys)%list = (files_written xs ++ files_written ys)%list.
Proof. apply omap_app. Qed.

Lemma files_written_console (t : list event) :
  files_written (List.map Console t) = [].
Proof. induction t as [|ev t IH]; [reflexivity|exact IH]. Qed.

(** X16: when the analysis raises, the script writes no file and does not
    read the clock; the exception goes no further: it is printed as the
    last thing the script does. *)
Theorem script_failure_writes_nothing (P : Lax) (mode : enum_format) (w : World)
    (writable : string -> bool) (c : Clock) (t : list event) (e : exception) :
  analyze_ewaste P w image_path default_prompt_file "" = (t, Raises e) ->
  files_written (fst (script P mode w writable c)) = [] /\
  last (fst (script P mode w writable c)) = Some (PrintFailure e) /\
  snd (script P mode w writable c) = c.
Proof.
  intros Hfail. unfold script. rewrite Hfail. cbn [fst snd].
  repeat split.
  - rewrite !files_written_app, files_written_console. reflexivity.
  - rewrite app_assoc. apply last_snoc.
Qed.

Lemma script_failure_writes_nothing_witness :
  files_written (fst (script strict FormatValue (sample_service JNull None)
                        (fun _ => true) sample_clock)) = [] /\
  last (fst (script strict FormatValue (sample_service JNull None)
               (fun _ => true) sample_clock))
    = Some (PrintFailure (ConstructionError NotAMapping)) /\
  snd (script strict FormatValue (sample_service JNull None)
         (fun _ => true) sample_clock) = sample_clock.
Proof.
  apply (script_failure_writes_nothing strict FormatValue
           (sample_service JNull None) (fun _ => true) sample_clock
           (fst (analyze_ewaste strict (sample_service JNull None) image_path
                   default_prompt_file ""))).
  vm_compute. reflexivity.
Defined.

(** X17: when the analysis returns a record and both files can be written,
    the script ends by writing the report it printed to the report file
    and the dictionary of the record to the JSON file, which are the only
    files it writes; constructing a record from the saved dictionary gives
    the analysed record back.  The time in the banner of the report is the
    first reading of the clock, the time in the two file names the second. *)
Theorem script_saves_report_and_record (P : Lax) (mode : enum_format) (w : World)
    (writable : string -> bool) (c : Clock) (t : list event) (a : EWasteAnalysis) :
  analyze_ewaste P w image_path default_prompt_file "" = (t, Returns a) ->
  writable (report_filename (strftime_compact (readings c (S (reads c))))) = true ->
  writable (json_filename (strftime_compact (readings c (S (reads c))))) = true ->
  exists before,
    fst (script P mode w writable c)
      = (before ++
         [Console (Print (render mode (readings c (reads c)) a));
          WriteText (report_filename (strftime_compact (readings c (S (reads c)))))
                    (render mode (readings c (reads c)) a);
          Console (Print (report_saved_prefix ++
                          report_filename (strftime_compact (readings c (S (reads c))))));
          DumpJson (json_filename (strftime_compact (readings c (S (reads c)))))
                   (EWasteAnalysis_dict a);
          Console (Print (json_saved_prefix ++
                          json_filename (strftime_compact (readings c (S (reads c))))))])%list /\
    files_written before = [] /\
    EWasteAnalysis_of_json P (JObj (EWasteAnalysis_dict a)) = Ok a /\
    reads (snd (script P mode w writable c)) = S (S (reads c)).
Proof.
  intros Hok Hreport Hjson. unfold script. rewrite Hok.
  rewrite generate_processing_report_reads_once.
  cbn [datetime_now readings reads]. rewrite Hreport, Hjson. cbn [fst snd reads].
  exists ([Console (Print analyzing_message)] ++ List.map Console t)%list.
  repeat split.
  - rewrite <- !app_assoc. reflexivity.
  - rewrite files_written_app, files_written_console. reflexivity.
  - cbn [EWasteAnalysis_of_json]. apply EWasteAnalysis_dict_init.
Qed.

Lemma script_saves_report_and_record_witness :
  exists before,
    fst (script strict FormatValue (sample_service sample_answer None)
           (fun _ => true) sample_clock)
      = (before ++
         [Console (Print (render FormatValue (readings sample_clock 0%nat) sample_record));
          WriteText (report_filename (strftime_compact (readings sample_clock 1%nat)))
                    (render FormatValue (readings sample_clock 0%nat) sample_record);
          Console (Print (report_saved_prefix ++
                          report_filename (strftime_compact (readings sample_clock 1%nat))));
          DumpJson (json_filename (strftime_compact (readings sample_clock 1%nat)))
                   (EWasteAnalysis_dict sample_record);
          Console (Print (json_saved_prefix ++
                          json_filename (strftime_compact (readings sample_clock 1%nat))))])%list /\
    files_written before = [] /\
    EWasteAnalysis_of_json strict (JObj (EWasteAnalysis_dict sample_record))
      = Ok sample_record /\
    reads (snd (script strict FormatValue (sample_service sample_answer None)
                  (fun _ => true) sample_clock)) = 2%nat.
Proof.
  apply (script_saves_report_and_record strict FormatValue
           (sample_service sample_answer None) (fun _ => true) sample_clock
           (fst (analyze_ewaste strict (sample_service sample_answer None)
                   image_path default_prompt_file "")) sample_record);
    [vm_compute; reflexivity|reflexivity|reflexivity].
Defined.

(** X18: the script writes at most the report file and then the JSON file,
    named after the same reading of the clock.  It writes a file only when
    the analysis returned a record, and the JSON file only when the report
    file was written. *)
Theorem script_files_in_order (P : Lax) (mode : enum_format) (w : World)
    (writable : string -> bool) (c : Clock) :
  let stamp := strftime_compact (readings c (S (reads c))) in
  let files := files_written (fst (script P mode w writable c)) in
  files = [] \/
  (exists t a,
     analyze_ewaste P w image_path default_prompt_file "" = (t, Returns a) /\
     writable (report_filename stamp) = true /\
     (files = [report_filename stamp] /\ writable (json_filename stamp) = false \/
      files = [report_filename stamp; json_filename stamp] /\
      writable (json_filename stamp) = true)).
Proof.
  intros stamp files. subst files. unfold script.
  destruct (analyze_ewaste P w image_path default_prompt_file "") as [t [a|e]].
  - rewrite generate_processing_report_reads_once.
    cbn [datetime_now readings reads]. fold stamp.
    destruct (writable (report_filename stamp)) eqn:Hreport.
    + right. exists t, a. split; [reflexivity|]. split; [reflexivity|].
      destruct (writable (json_filename stamp)) eqn:Hjson; cbn [fst];
        rewrite !files_written_app, files_written_console; [right|left];
        split; reflexivity.
    + left. cbn [fst].
      rewrite !files_written_app, files_written_console. reflexivity.
  - left. cbn [fst].
    rewrite !files_written_app, files_written_console. reflexivity.
Qed.

(** ** Null in a required field *)

Section NullField.
Variable P : Lax.
Variable m : gmap string json.
Variable k : string.
Hypothesis Hnull : m !! k = Some JNull.

Lemma required_null_enum {E} `{StrEnum E} :
  required m k (validate_enum (E := E)) = Raise (NoneNotAllowed k).
Proof. unfold required. now rewrite Hnull. Qed.

Lemma required_null_str :
  required m k (validate_str P) = Raise (NoneNotAllowed k).
Proof. unfold required. now rewrite Hnull. Qed.

Lemma required_null_hazardous :
  required m k (validate_hazardous P) = Raise (NoneNotAllowed k).
Proof. unfold required. now rewrite Hnull. Qed.

Lemma required_null_float :
  required m k (validate_float P) = Raise (NoneNotAllowed k).
Proof. unfold required. now rewrite Hnull. Qed.
End NullField.

(** X19: null is not a value of any field declared without default: an
    object that holds null in one of them does not construct, whatever the
    other fields hold. *)
Theorem null_required_field_rejected (P : Lax) (m : gmap string json) (k : string) :
  k ∈ EWasteAnalysis_required -> m !! k = Some JNull ->
  exists e, EWasteAnalysis_of_json P (JObj m) = Raise e.
Proof.
  intros Hk Hm. cbn [EWasteAnalysis_of_json]. unfold EWasteAnalysis_init.
  unfold EWasteAnalysis_required in Hk.
  repeat (apply elem_of_cons in Hk as [-> | Hk]);
    [..|apply elem_of_nil in Hk; contradiction];
    first [ rewrite (required_null_enum m _ Hm)
          | rewrite (required_null_str P m _ Hm)
          | rewrite (required_null_hazardous P m _ Hm)
          | rewrite (required_null_float P m _ Hm) ];
    repeat next_field.
Qed.

Lemma null_required_field_rejected_witness :
  exists e,
    EWasteAnalysis_of_json strict
      (JObj (<["observations" := JNull]> (sample_response (JFloat float_087))))
    = Raise e.
Proof.
  apply (null_required_field_rejected strict _ "observations").
  - unfold EWasteAnalysis_required. repeat constructor.
  - vm_compute. reflexivity.
Defined.
